(** * PostgresDb: a shallow embedding of [db.py]

    The gateway of [db.py] assembles SQL text from its arguments and sends it
    through one shared psycopg2 connection.  The development below embeds
    - the Python values the methods inspect with [isinstance],
    - the builtins they rely on ([str], [str.join], f-strings),
    - the class state ([_instance], [_connection]) and the connection's calls,
    - the five public methods and [__new__],
    and then states the behaviour of the methods as theorems. *)

From Stdlib Require Import String Ascii List ZArith Bool Lia DecimalString.
Import ListNotations.
Open Scope string_scope.
Set Warnings "-register-all".

(** ** Python values *)

(** The values the gateway can be handed.  A string is a sequence of code
    points below 256; the entries of a dict come in insertion order, and a
    dict has every key once; [PObj] is any object of another class (a float,
    a [Decimal], a [datetime]), given by the name CPython prints for its
    class in messages (the [tp_name] of the type) and the text [str()] and
    [repr()] give for it. *)
Inductive pyval : Type :=
| PNone
| PBool (b : bool)
| PInt (z : Z)
| PStr (s : string)
| PList (items : list pyval)
| PTuple (items : list pyval)
| PDict (entries : list (pyval * pyval))
| PObj (cls : string) (text : string).

(** Exceptions, by class and message. *)
Inductive exn : Type :=
| TypeError (msg : string)
| ValueError (msg : string)
| RecursionError (msg : string)
| AttributeError (msg : string)
| ProgrammingError (msg : string)
| DatabaseError (msg : string).

(** The result of running Python code: a value, or an exception that
    propagates to the caller. *)
Inductive outcome (A : Type) : Type :=
| Returns (a : A)
| Raises (e : exn).
Arguments Returns {A} a.
Arguments Raises {A} e.

(** [isinstance(v, str)], [isinstance(v, list)], [isinstance(v, tuple)],
    [isinstance(v, dict)]. *)
Definition is_str (v : pyval) : bool :=
  match v with PStr _ => true | _ => false end.

Definition is_list (v : pyval) : bool :=
  match v with PList _ => true | _ => false end.

Definition is_tuple (v : pyval) : bool :=
  match v with PTuple _ => true | _ => false end.

Definition is_dict (v : pyval) : bool :=
  match v with PDict _ => true | _ => false end.

Definition is_none (v : pyval) : bool :=
  match v with PNone => true | _ => false end.

(** ** Builtins: [str], [repr], [str.join] *)

(** The decimal text of an integer. *)
Definition str_of_int (z : Z) : string :=
  NilZero.string_of_int (Z.to_int z).

(** What [str] and [repr] depend on in the interpreter: the value of
    [sys.get_int_max_str_digits()] (4300 unless it has been changed; 0 for no
    limit), and [repr_depth], the number of [repr] calls that the stack has
    room for below the [repr] of the value itself. *)
Record interpreter : Type := { int_max_str_digits : nat; repr_depth : nat }.

Definition decimal_digits (z : Z) : nat := String.length (str_of_int (Z.abs z)).

(** [str(z)] and [repr(z)] for an integer: the conversion is refused when
    the integer has more digits than the limit allows. *)
Definition int_str (i : interpreter) (z : Z) : outcome string :=
  if negb (Nat.eqb (int_max_str_digits i) 0)
     && (int_max_str_digits i <? decimal_digits z)%nat
  then Raises (ValueError ("Exceeds the limit ("
                           ++ str_of_int (Z.of_nat (int_max_str_digits i))
                           ++ ") for integer string conversion; "
                           ++ "use sys.set_int_max_str_digits() to increase the limit"))
  else Returns (str_of_int z).

(** The results of a list of computations made in order: the first exception
    ends them. *)
Fixpoint sequence {A : Type} (l : list (outcome A)) : outcome (list A) :=
  match l with
  | [] => Returns []
  | Returns a :: rest =>
      match sequence rest with
      | Returns others => Returns (a :: others)
      | Raises e => Raises e
      end
  | Raises e :: _ => Raises e
  end.

Definition hex_digit (n : nat) : ascii :=
  nth n (list_ascii_of_string "0123456789abcdef") "0"%char.

(** [repr] of one character inside a string literal delimited by [quote]. *)
Definition repr_char (quote c : ascii) : string :=
  let n := nat_of_ascii c in
  if Ascii.eqb c "\"%char then "\\"
  else if Ascii.eqb c quote then String "\"%char (String c "")
  else if Nat.eqb n 9 then "\t"
  else if Nat.eqb n 10 then "\n"
  else if Nat.eqb n 13 then "\r"
  else if (n <? 32)%nat || ((127 <=? n)%nat && (n <=? 160)%nat) || Nat.eqb n 173
       then String "\"%char (String "x"%char
              (String (hex_digit (n / 16)) (String (hex_digit (n mod 16)) "")))
  else String c "".

Fixpoint has_char (c : ascii) (s : string) : bool :=
  match s with
  | EmptyString => false
  | String d r => Ascii.eqb c d || has_char c r
  end.

Fixpoint repr_chars (quote : ascii) (s : string) : string :=
  match s with
  | EmptyString => ""
  | String c r => repr_char quote c ++ repr_chars quote r
  end.

Definition dquote : ascii := ascii_of_nat 34.
Definition squote : ascii := ascii_of_nat 39.

(** [repr(s)] for a string: single quotes, unless the string holds a single
    quote and no double quote. *)
Definition repr_str (s : string) : string :=
  let quote := if has_char squote s && negb (has_char dquote s)
               then dquote else squote in
  String quote (repr_chars quote s ++ String quote "").

(** [sep.join(parts)] on parts already known to be strings. *)
Fixpoint concat_sep (sep : string) (parts : list string) : string :=
  match parts with
  | [] => ""
  | [p] => p
  | p :: rest => p ++ sep ++ concat_sep sep rest
  end.

(** [repr(v)] with room for [fuel] nested calls of [repr], that of [v]
    included; each item of a container is one call deeper. *)
Fixpoint repr_in (i : interpreter) (fuel : nat) (v : pyval) : outcome string :=
  match fuel with
  | O =>
      Raises (RecursionError
                "maximum recursion depth exceeded while getting the repr of an object")
  | S fuel' =>
      match v with
      | PNone => Returns "None"
      | PBool true => Returns "True"
      | PBool false => Returns "False"
      | PInt z => int_str i z
      | PStr s => Returns (repr_str s)
      | PList items =>
          match sequence (map (repr_in i fuel') items) with
          | Returns parts => Returns ("[" ++ concat_sep ", " parts ++ "]")
          | Raises e => Raises e
          end
      | PTuple items =>
          match sequence (map (repr_in i fuel') items) with
          | Returns [x] => Returns ("(" ++ x ++ ",)")
          | Returns parts => Returns ("(" ++ concat_sep ", " parts ++ ")")
          | Raises e => Raises e
          end
      | PDict entries =>
          match sequence
                  (map (fun kv =>
                          match repr_in i fuel' (fst kv) with
                          | Returns k =>
                              match repr_in i fuel' (snd kv) with
                              | Returns x => Returns (k ++ ": " ++ x)
                              | Raises e => Raises e
                              end
                          | Raises e => Raises e
                          end) entries) with
          | Returns parts => Returns ("{" ++ concat_sep ", " parts ++ "}")
          | Raises e => Raises e
          end
      | PObj _ text => Returns text
      end
  end.

Definition py_repr (i : interpreter) (v : pyval) : outcome string :=
  repr_in i (S (repr_depth i)) v.

(** [str(v)]: the string itself for a string, [repr(v)] otherwise. *)
Definition py_str (i : interpreter) (v : pyval) : outcome string :=
  match v with
  | PStr s => Returns s
  | _ => py_repr i v
  end.

(** The text of a value that [isinstance(v, str)] has accepted, as an
    f-string writes it; the methods format no other value this way. *)
Definition str_text (v : pyval) : string :=
  match v with
  | PStr s => s
  | _ => ""
  end.

(** [type(v).__name__], as it shows in the messages of [TypeError]; for an
    object of another class, the [tp_name] of its type. *)
Definition type_name (v : pyval) : string :=
  match v with
  | PNone => "NoneType"
  | PBool _ => "bool"
  | PInt _ => "int"
  | PStr _ => "str"
  | PList _ => "list"
  | PTuple _ => "tuple"
  | PDict _ => "dict"
  | PObj cls _ => cls
  end.

(** [sep.join(items)]: every item has to be a string, the first one that is
    not raises [TypeError] and names its position. *)
Fixpoint join_from (i : nat) (items : list pyval) : outcome (list string) :=
  match items with
  | [] => Returns []
  | PStr s :: rest =>
      match join_from (S i) rest with
      | Returns parts => Returns (s :: parts)
      | Raises e => Raises e
      end
  | v :: _ =>
      Raises (TypeError ("sequence item " ++ str_of_int (Z.of_nat i)
                         ++ ": expected str instance, " ++ type_name v ++ " found"))
  end.

Definition str_join (sep : string) (items : list pyval) : outcome string :=
  match join_from 0 items with
  | Returns parts => Returns (concat_sep sep parts)
  | Raises e => Raises e
  end.

Fixpoint chars_of (s : string) : list pyval :=
  match s with
  | EmptyString => []
  | String c r => PStr (String c "") :: chars_of r
  end.

(** What iterating over a value yields: the items of a list or tuple, the
    keys of a dict, the characters of a string. *)
Definition py_iter (v : pyval) : outcome (list pyval) :=
  match v with
  | PList items | PTuple items => Returns items
  | PDict entries => Returns (map fst entries)
  | PStr s => Returns (chars_of s)
  | _ => Raises (TypeError ("can only join an iterable"))
  end.

(** [dict.keys()] and [dict.values()], in insertion order. *)
Definition dict_keys (entries : list (pyval * pyval)) : list pyval := map fst entries.
Definition dict_values (entries : list (pyval * pyval)) : list pyval := map snd entries.

(** ** Calling a method: binding arguments to parameters *)

(** A parameter of a signature (after [self]): its name and its default. *)
Record param : Type := { p_name : string; p_default : option pyval }.

Definition required (name : string) : param :=
  {| p_name := name; p_default := None |}.
Definition optional (name : string) (default : pyval) : param :=
  {| p_name := name; p_default := Some default |}.

Fixpoint kw_lookup (name : string) (kwargs : list (string * pyval)) : option pyval :=
  match kwargs with
  | [] => None
  | (k, v) :: rest => if String.eqb k name then Some v else kw_lookup name rest
  end.

Definition has_param (ps : list param) (name : string) : bool :=
  existsb (fun p => String.eqb (p_name p) name) ps.

(** Positional arguments fill the parameters from the left; the others come
    from the keywords, then from the defaults.  A parameter left without a
    value raises [TypeError]; the message names the first such parameter
    (CPython names all of them, after the qualified name of the method). *)
Fixpoint fill (fname : string) (ps : list param) (args : list pyval)
         (kwargs : list (string * pyval)) : outcome (list pyval) :=
  match ps with
  | [] => Returns []
  | p :: ps' =>
      let rest (v : pyval) (args' : list pyval) :=
        match fill fname ps' args' kwargs with
        | Returns vs => Returns (v :: vs)
        | Raises e => Raises e
        end in
      match args with
      | a :: args' =>
          match kw_lookup (p_name p) kwargs with
          | Some _ =>
              Raises (TypeError (fname ++ "() got multiple values for argument '"
                                 ++ p_name p ++ "'"))
          | None => rest a args'
          end
      | [] =>
          match kw_lookup (p_name p) kwargs with
          | Some v => rest v []
          | None =>
              match p_default p with
              | Some d => rest d []
              | None =>
                  Raises (TypeError (fname ++ "() missing required positional argument: '"
                                     ++ p_name p ++ "'"))
              end
          end
      end
  end.

Definition bind_args (fname : string) (ps : list param) (args : list pyval)
           (kwargs : list (string * pyval)) : outcome (list pyval) :=
  if (length ps <? length args)%nat then
    Raises (TypeError (fname ++ "() takes " ++ str_of_int (Z.of_nat (S (length ps)))
                       ++ " positional arguments but "
                       ++ str_of_int (Z.of_nat (S (length args))) ++ " were given"))
  else
    match find (fun kv => negb (has_param ps (fst kv))) kwargs with
    | Some (k, _) =>
        Raises (TypeError (fname ++ "() got an unexpected keyword argument '" ++ k ++ "'"))
    | None => fill fname ps args kwargs
    end.

(** The signatures of the five public methods. *)
Definition select_sig : list param :=
  [required "table_name"; optional "columns" PNone; optional "where" PNone].
Definition insert_sig : list param :=
  [required "table_name"; required "columns_and_values"].
Definition update_sig : list param :=
  [required "table_name"; required "columns_and_values"; optional "where" PNone].
Definition delete_sig : list param :=
  [required "table_name"; required "where"].
Definition clear_table_sig : list param :=
  [required "table_name"].

(** ** The process state *)

(** The keyword arguments of [psycopg2.connect]: what [os.getenv] gave for
    the five variables ([None] for a variable that is not set). *)
Record dsn : Type := {
  dbname : option string;
  host : option string;
  user : option string;
  password : option string;
  port : option string
}.

(** A connection object: its identity and its [autocommit] attribute. *)
Record connection : Type := { conn_id : nat; autocommit : bool }.

(** A cursor: the connection it belongs to and the result set of the last
    statement it executed, if that statement produced one. *)
Record cursor : Type := { cur_conn : nat; cur_rows : option (list pyval) }.

(** The calls made to the libraries, in order. *)
Inductive call : Type :=
| LoadDotenv
| Connect (params : dsn)
| Cursor (conn : nat)
| Execute (conn : nat) (query : string)
| Fetchall (conn : nat).

Definition is_connect (c : call) : bool :=
  match c with Connect _ => true | _ => false end.

Fixpoint env_lookup (name : string) (env : list (string * string)) : option string :=
  match env with
  | [] => None
  | (k, v) :: rest => if String.eqb k name then Some v else env_lookup name rest
  end.

(** [dotenv.load_dotenv()]: the variables of the [.env] file (as parsed, one
    value per name) that the environment does not already define are added
    to it. *)
Fixpoint with_dotenv (file env : list (string * string)) : list (string * string) :=
  match file with
  | [] => env
  | (k, v) :: rest =>
      match env_lookup k env with
      | Some _ => with_dotenv rest env
      | None => with_dotenv rest (env ++ [(k, v)])
      end
  end.

Section Gateway.

(** The database server: its state, how it reacts to a statement (a new
    state, and either an exception or the result set, when the statement has
    one), and whether it refuses a connection. *)
Variable DB : Type.
Variable run_sql : string -> DB -> DB * (exn + option (list pyval)).
Variable connect_error : dsn -> DB -> option exn.

Record world : Type := {
  environ : list (string * string);
  dotenv_file : list (string * string);
  _instance : option nat;
  _connection : option connection;
  next_object : nat;
  interp : interpreter;
  database : DB;
  calls : list call
}.

(** Code that reads and changes the process state and returns or raises. *)
Definition py (A : Type) : Type := world -> outcome A * world.

Definition ret {A : Type} (a : A) : py A := fun w => (Returns a, w).

Definition raise {A : Type} (e : exn) : py A := fun w => (Raises e, w).

Definition bind {A B : Type} (m : py A) (k : A -> py B) : py B :=
  fun w =>
    match m w with
    | (Returns a, w') => k a w'
    | (Raises e, w') => (Raises e, w')
    end.

Notation "x <- m ;; k" := (bind m (fun x => k))
  (at level 61, m at next level, right associativity).
Notation "m ;;; k" := (bind m (fun _ => k))
  (at level 61, right associativity).

Definition lift {A : Type} (o : outcome A) : py A := fun w => (o, w).

(** A computation that depends on the settings of the interpreter. *)
Definition with_interp {A : Type} (f : interpreter -> outcome A) : py A :=
  fun w => (f (interp w), w).

Definition log (c : call) (w : world) : world :=
  {| environ := environ w; dotenv_file := dotenv_file w;
     _instance := _instance w; _connection := _connection w;
     next_object := next_object w; interp := interp w;
     database := database w;
     calls := calls w ++ [c] |}.

Definition set_database (d : DB) (w : world) : world :=
  {| environ := environ w; dotenv_file := dotenv_file w;
     _instance := _instance w; _connection := _connection w;
     next_object := next_object w; interp := interp w;
     database := d;
     calls := calls w |}.

Definition set_environ (env : list (string * string)) (w : world) : world :=
  {| environ := env; dotenv_file := dotenv_file w;
     _instance := _instance w; _connection := _connection w;
     next_object := next_object w; interp := interp w;
     database := database w;
     calls := calls w |}.

Definition set_instance (i : option nat) (w : world) : world :=
  {| environ := environ w; dotenv_file := dotenv_file w;
     _instance := i; _connection := _connection w;
     next_object := next_object w; interp := interp w;
     database := database w;
     calls := calls w |}.

Definition set_connection (c : option connection) (w : world) : world :=
  {| environ := environ w; dotenv_file := dotenv_file w;
     _instance := _instance w; _connection := c;
     next_object := next_object w; interp := interp w;
     database := database w;
     calls := calls w |}.

Definition set_next_object (n : nat) (w : world) : world :=
  {| environ := environ w; dotenv_file := dotenv_file w;
     _instance := _instance w; _connection := _connection w;
     next_object := n; interp := interp w;
     database := database w;
     calls := calls w |}.

(** *** The libraries *)

Definition load_dotenv : py unit :=
  fun w => (Returns tt,
            log LoadDotenv (set_environ (with_dotenv (dotenv_file w) (environ w)) w)).

Definition getenv (name : string) : py (option string) :=
  fun w => (Returns (env_lookup name (environ w)), w).

(** [super().__new__(cls)]: an object with a fresh identity. *)
Definition object_new : py nat :=
  fun w => (Returns (next_object w), set_next_object (S (next_object w)) w).

(** [psycopg2.connect(...)]: a new connection object (autocommit is off on a
    new connection), or the server's refusal. *)
Definition psycopg2_connect (params : dsn) : py connection :=
  fun w =>
    let w1 := log (Connect params) w in
    match connect_error params (database w) with
    | Some e => (Raises e, w1)
    | None =>
        (Returns {| conn_id := next_object w; autocommit := false |},
         set_next_object (S (next_object w)) w1)
    end.

(** [self._connection.cursor()]; the attribute is looked up on the class,
    which holds [None] until a connection has been opened. *)
Definition connection_cursor : py cursor :=
  fun w =>
    match _connection w with
    | None => (Raises (AttributeError "'NoneType' object has no attribute 'cursor'"), w)
    | Some c =>
        (Returns {| cur_conn := conn_id c; cur_rows := None |}, log (Cursor (conn_id c)) w)
    end.

(** [cursor.execute(query)]: the statement reaches the server; what the
    server raises propagates. *)
Definition cursor_execute (cur : cursor) (query : string) : py cursor :=
  fun w =>
    let w1 := log (Execute (cur_conn cur) query) w in
    match run_sql query (database w) with
    | (d, inl e) => (Raises e, set_database d w1)
    | (d, inr rows) =>
        (Returns {| cur_conn := cur_conn cur; cur_rows := rows |}, set_database d w1)
    end.

(** [cursor.fetchall()]: all the rows of the result set, in order. *)
Definition cursor_fetchall (cur : cursor) : py pyval :=
  fun w =>
    let w1 := log (Fetchall (cur_conn cur)) w in
    match cur_rows cur with
    | Some rows => (Returns (PList rows), w1)
    | None => (Raises (ProgrammingError "no results to fetch"), w1)
    end.

(** *** [PostgresDb.__new__] *)

Definition get_instance : py (option nat) :=
  fun w => (Returns (_instance w), w).

Definition put_instance (i : nat) : py unit :=
  fun w => (Returns tt, set_instance (Some i) w).

Definition put_connection (c : connection) : py unit :=
  fun w => (Returns tt, set_connection (Some c) w).

(** [cls._connection.autocommit = value] *)
Definition put_autocommit (value : bool) : py unit :=
  fun w =>
    match _connection w with
    | None =>
        (Raises (AttributeError "'NoneType' object has no attribute 'autocommit'"), w)
    | Some c =>
        (Returns tt,
         set_connection (Some {| conn_id := conn_id c; autocommit := value |}) w)
    end.

(** The value returned is [cls._instance]. *)
Definition __new__ : py (option nat) :=
  inst <- get_instance ;;
  (match inst with
   | None =>
       load_dotenv ;;;
       obj <- object_new ;;
       put_instance obj ;;;
       database_name <- getenv "DATABASE_NAME" ;;
       database_host <- getenv "DATABASE_HOST" ;;
       database_username <- getenv "DATABASE_USERNAME" ;;
       database_password <- getenv "DATABASE_PASSWORD" ;;
       database_port <- getenv "DATABASE_PORT" ;;
       conn <- psycopg2_connect {| dbname := database_name; host := database_host;
                                   user := database_username;
                                   password := database_password;
                                   port := database_port |} ;;
       put_connection conn ;;;
       put_autocommit true
   | Some _ => ret tt
   end) ;;;
  get_instance.

(** *** The error descriptors *)

Definition error_dict (message : string) : pyval :=
  PDict [(PStr "status", PStr "Error"); (PStr "message", PStr message)].

Definition table_name_error : pyval :=
  error_dict "Argument table_name (name of table) need to be type string".
Definition columns_error : pyval :=
  error_dict "Argument columns (list of columns) need to be types list or tuple".
Definition where_error : pyval :=
  error_dict "Argument where (condition for filtering) need to be type string".
Definition columns_and_values_error : pyval :=
  error_dict "Argument columns_and_values (columns and it's values) need to be type dict".
Definition keys_error : pyval :=
  error_dict "All keys of columns_and_values (columns and it's values) need to be type string".

(** *** [select] *)

Definition select (table_name columns where_ : pyval) : py pyval :=
  if negb (is_str table_name) then ret table_name_error
  else if negb (is_none columns) && negb (is_list columns) && negb (is_tuple columns)
  then ret columns_error
  else if negb (is_none where_) && negb (is_str where_) then ret where_error
  else
    cursor <- connection_cursor ;;
    if is_none columns then
      let query := "SELECT * FROM " ++ str_text table_name in
      if negb (is_none where_) then
        let query := query ++ " WHERE " ++ str_text where_ in
        cursor <- cursor_execute cursor query ;;
        cursor_fetchall cursor
      else
        cursor <- cursor_execute cursor query ;;
        cursor_fetchall cursor
    else
      items <- lift (py_iter columns) ;;
      columns <- lift (str_join ", " items) ;;
      let query := "SELECT " ++ columns ++ " FROM " ++ str_text table_name in
      if negb (is_none where_) then
        let query := query ++ " WHERE " ++ str_text where_ in
        cursor <- cursor_execute cursor query ;;
        cursor_fetchall cursor
      else
        cursor <- cursor_execute cursor query ;;
        cursor_fetchall cursor.

(** *** [insert] *)

(** The loop over the keys: it returns the error descriptor at the first key
    that is not a string. *)
Fixpoint check_columns (columns : list pyval) : option pyval :=
  match columns with
  | [] => None
  | column :: rest =>
      if negb (is_str column) then Some keys_error else check_columns rest
  end.

(** The loop of [insert] over the values; [values] is the list built so
    far.  [str(value)] can raise, and the exception leaves the loop. *)
Fixpoint insert_values (i : interpreter) (todo : list pyval) (values : list string)
  : outcome (list string) :=
  match todo with
  | [] => Returns values
  | value :: rest =>
      if negb (is_str value) then
        match py_str i value with
        | Returns text => insert_values i rest (values ++ [text])
        | Raises e => Raises e
        end
      else insert_values i rest
             (values ++ [String dquote (str_text value ++ String dquote "")])
  end.

Definition insert (table_name columns_and_values : pyval) : py pyval :=
  if negb (is_str table_name) then ret table_name_error
  else
    match columns_and_values with
    | PDict entries =>
        cursor <- connection_cursor ;;
        let columns := dict_keys entries in
        match check_columns columns with
        | Some error => ret error
        | None =>
            columns <- lift (str_join ", " columns) ;;
            values <- with_interp
                        (fun i => insert_values i (dict_values entries) []) ;;
            let values := concat_sep ", " values in
            let query := "INSERT INTO " ++ str_text table_name ++ " (" ++ columns
                         ++ ") VALUES (" ++ values ++ ")" in
            cursor_execute cursor query ;;;
            ret PNone
        end
    | _ => ret columns_and_values_error
    end.

(** *** [update] *)

(** The loop of [update] over the values. *)
Fixpoint update_values (i : interpreter) (todo : list pyval) (values : list string)
  : outcome (list string) :=
  match todo with
  | [] => Returns values
  | value :: rest =>
      if negb (is_str value) then
        match py_str i value with
        | Returns text => update_values i rest (values ++ [text])
        | Raises e => Raises e
        end
      else update_values i rest
             (values ++ [String dquote (str_text value ++ String dquote "")])
  end.

(** [f"{column}={value}" for column, value in zip(columns, values)] *)
Definition assignments (columns : list pyval) (values : list string) : list string :=
  map (fun cv => str_text (fst cv) ++ "=" ++ snd cv) (combine columns values).

Definition update (table_name columns_and_values where_ : pyval) : py pyval :=
  if negb (is_str table_name) then ret table_name_error
  else
    match columns_and_values with
    | PDict entries =>
        if negb (is_none where_) && negb (is_str where_) then ret where_error
        else
          cursor <- connection_cursor ;;
          let columns := dict_keys entries in
          match check_columns columns with
          | Some error => ret error
          | None =>
              values <- with_interp
                          (fun i => update_values i (dict_values entries) []) ;;
              let columns_and_values := concat_sep ", " (assignments columns values) in
              let query := "UPDATE " ++ str_text table_name ++ " SET "
                           ++ columns_and_values in
              let query := if negb (is_none where_)
                           then query ++ " WHERE " ++ str_text where_ else query in
              cursor_execute cursor query ;;;
              ret PNone
          end
    | _ => ret columns_and_values_error
    end.

(** *** [delete] and [clear_table] *)

Definition delete (table_name where_ : pyval) : py pyval :=
  if negb (is_str table_name) then ret table_name_error
  else if negb (is_str where_) then ret where_error
  else
    cursor <- connection_cursor ;;
    let query := "DELETE FROM " ++ str_text table_name ++ " WHERE " ++ str_text where_ in
    cursor_execute cursor query ;;;
    ret PNone.

Definition clear_table (table_name : pyval) : py pyval :=
  if negb (is_str table_name) then ret table_name_error
  else
    cursor <- connection_cursor ;;
    let query := "DELETE FROM " ++ str_text table_name in
    cursor_execute cursor query ;;;
    ret PNone.

(** *** The methods as they are called *)

Definition arg (i : nat) (values : list pyval) : pyval := nth i values PNone.

Definition call_select (args : list pyval) (kwargs : list (string * pyval)) : py pyval :=
  vs <- lift (bind_args "select" select_sig args kwargs) ;;
  select (arg 0 vs) (arg 1 vs) (arg 2 vs).

Definition call_insert (args : list pyval) (kwargs : list (string * pyval)) : py pyval :=
  vs <- lift (bind_args "insert" insert_sig args kwargs) ;;
  insert (arg 0 vs) (arg 1 vs).

Definition call_update (args : list pyval) (kwargs : list (string * pyval)) : py pyval :=
  vs <- lift (bind_args "update" update_sig args kwargs) ;;
  update (arg 0 vs) (arg 1 vs) (arg 2 vs).

Definition call_delete (args : list pyval) (kwargs : list (string * pyval)) : py pyval :=
  vs <- lift (bind_args "delete" delete_sig args kwargs) ;;
  delete (arg 0 vs) (arg 1 vs).

Definition call_clear_table (args : list pyval) (kwargs : list (string * pyval)) : py pyval :=
  vs <- lift (bind_args "clear_table" clear_table_sig args kwargs) ;;
  clear_table (arg 0 vs).

End Gateway.

Arguments environ {DB} w.
Arguments dotenv_file {DB} w.
Arguments _instance {DB} w.
Arguments _connection {DB} w.
Arguments next_object {DB} w.
Arguments database {DB} w.
Arguments calls {DB} w.
Arguments log {DB} c w.
Arguments set_database {DB} d w.
Arguments bind {DB A B} m k w.
Arguments ret {DB A} a w.
Arguments raise {DB A} e w.
Arguments lift {DB A} o w.
Arguments with_interp {DB A} f w.
Arguments interp {DB} w.
Arguments connection_cursor {DB} w.
Arguments cursor_execute {DB} run_sql cur query w.
Arguments cursor_fetchall {DB} cur w.
Arguments select {DB} run_sql table_name columns where_ w.
Arguments insert {DB} run_sql table_name columns_and_values w.
Arguments update {DB} run_sql table_name columns_and_values where_ w.
Arguments delete {DB} run_sql table_name where_ w.
Arguments clear_table {DB} run_sql table_name w.
Arguments call_select {DB} run_sql args kwargs w.
Arguments call_insert {DB} run_sql args kwargs w.
Arguments call_update {DB} run_sql args kwargs w.
Arguments call_delete {DB} run_sql args kwargs w.
Arguments call_clear_table {DB} run_sql args kwargs w.
Arguments __new__ {DB} connect_error w.
Arguments Build_world {DB} environ dotenv_file _instance _connection
  next_object interp database calls.

(** ** A server for concrete runs *)

(** The state of this server is the list of the statements it has committed.
    It refuses the empty statement, answers a statement that starts with
    [SELECT] with one row, and has no result set for the others. *)
Definition demo_db : Type := list string.

Definition demo_run_sql (query : string) (d : demo_db)
  : demo_db * (exn + option (list pyval)) :=
  if String.eqb query "" then (d, inl (ProgrammingError "can't execute an empty query"))
  else if String.prefix "SELECT" query
       then ((d ++ [query])%list, inr (Some [PTuple [PInt 1; PStr "x"]]))
       else ((d ++ [query])%list, inr None).

(** It accepts a connection when a database name is given. *)
Definition demo_connect_error (params : dsn) (d : demo_db) : option exn :=
  match dbname params with
  | Some _ => None
  | None => Some (DatabaseError "connection refused")
  end.

(** The interpreter as it starts: the default limit on the digits of an
    integer, and room for the nesting of any value met in practice. *)
Definition default_interpreter : interpreter :=
  {| int_max_str_digits := 4300; repr_depth := 990 |}.

(** A process in which the gateway has been constructed. *)
Definition demo_world : world demo_db :=
  {| environ := [("DATABASE_NAME", "shop")];
     dotenv_file := [];
     _instance := Some 0%nat;
     _connection := Some {| conn_id := 1; autocommit := true |};
     next_object := 2;
     interp := default_interpreter;
     database := [];
     calls := [LoadDotenv;
               Connect {| dbname := Some "shop"; host := None; user := None;
                          password := None; port := None |}] |}.

(** A process that has not constructed the gateway yet. *)
Definition fresh_world (env : list (string * string)) : world demo_db :=
  {| environ := env; dotenv_file := [("DATABASE_PORT", "5432")];
     _instance := None; _connection := None;
     next_object := 0; interp := default_interpreter;
     database := []; calls := [] |}.

(** ** What the claims speak of *)

(** Value serialization, in the words of the specification: a value that is
    not a string is converted by its default string representation, a string
    is wrapped in double quotes, nothing is escaped.  A value that [str]
    refuses has no representation. *)
Definition serialize_value (i : interpreter) (v : pyval) : outcome string :=
  match v with
  | PStr s => Returns (String dquote s ++ String dquote "")
  | other => py_str i other
  end.

(** The values of a column map, serialized in the order of the map. *)
Definition serialize_all (i : interpreter) (values : list pyval)
  : outcome (list string) :=
  sequence (map (serialize_value i) values).

(** A column map with string keys, as the dict the methods receive. *)
Definition fields_dict (fields : list (string * pyval)) : pyval :=
  PDict (map (fun kv => (PStr (fst kv), snd kv)) fields).

Definition strs (l : list string) : list pyval := map PStr l.

Section Observations.

Context {DB : Type}.
Variable run_sql : string -> DB -> DB * (exn + option (list pyval)).

(** Everything but the database and the calls is as it was. *)
Definition same_process (w w' : world DB) : Prop :=
  environ w' = environ w /\ dotenv_file w' = dotenv_file w
  /\ _instance w' = _instance w
  /\ _connection w' = _connection w
  /\ next_object w' = next_object w.

(** The run [r] from [w] took one cursor on connection [c], executed exactly
    the statement [q] on it, and returned [None] unless the server raised. *)
Definition executes (q : string) (c : nat) (w : world DB)
           (r : outcome pyval * world DB) : Prop :=
  calls (snd r) = (calls w ++ [Cursor c; Execute c q])%list
  /\ database (snd r) = fst (run_sql q (database w))
  /\ same_process w (snd r)
  /\ fst r = match snd (run_sql q (database w)) with
            | inl e => Raises e
            | inr _ => Returns PNone
            end.

(** The run [r] from [w] took one cursor on connection [c], executed exactly
    the statement [q] on it, and returned all the rows of its result set, in
    the order the server gave them. *)
Definition fetches (q : string) (c : nat) (w : world DB)
           (r : outcome pyval * world DB) : Prop :=
  database (snd r) = fst (run_sql q (database w))
  /\ same_process w (snd r)
  /\ match snd (run_sql q (database w)) with
     | inl e =>
         calls (snd r) = (calls w ++ [Cursor c; Execute c q])%list /\ fst r = Raises e
     | inr (Some rows) =>
         calls (snd r) = (calls w ++ [Cursor c; Execute c q; Fetchall c])%list
         /\ fst r = Returns (PList rows)
     | inr None =>
         calls (snd r) = (calls w ++ [Cursor c; Execute c q; Fetchall c])%list
         /\ fst r = Raises (ProgrammingError "no results to fetch")
     end.

End Observations.

(** The number of connections opened so far. *)
Definition connects (cs : list call) : nat := length (filter is_connect cs).

Section Constructions.

Context {DB : Type}.
Variable connect_error : dsn -> DB -> option exn.

(** [n] constructions in a row, by a caller that goes on after a failure. *)
Fixpoint construct (n : nat) (w : world DB) : list (outcome (option nat)) * world DB :=
  match n with
  | O => ([], w)
  | S n' =>
      let (r, w1) := __new__ connect_error w in
      let (rs, w2) := construct n' w1 in
      (r :: rs, w2)
  end.

End Constructions.

(** ** A caller of the gateway *)

Definition is_execute (c : call) : bool :=
  match c with Execute _ _ => true | _ => false end.

(** The number of statements sent so far. *)
Definition executions (cs : list call) : nat := length (filter is_execute cs).

(** What a caller can ask of the class: an instance, or one of the five
    methods with the arguments it likes. *)
Inductive request : Type :=
| Construct
| Select (table_name columns where_ : pyval)
| Insert (table_name columns_and_values : pyval)
| Update (table_name columns_and_values where_ : pyval)
| Delete (table_name where_ : pyval)
| ClearTable (table_name : pyval).

Definition is_construct (r : request) : bool :=
  match r with Construct => true | _ => false end.

Section Callers.

Context {DB : Type}.
Variable run_sql : string -> DB -> DB * (exn + option (list pyval)).
Variable connect_error : dsn -> DB -> option exn.

(** The process after one request, whatever it returned or raised. *)
Definition serve (r : request) (w : world DB) : world DB :=
  match r with
  | Construct => snd (__new__ connect_error w)
  | Select t c wh => snd (select run_sql t c wh w)
  | Insert t cv => snd (insert run_sql t cv w)
  | Update t cv wh => snd (update run_sql t cv wh w)
  | Delete t wh => snd (delete run_sql t wh w)
  | ClearTable t => snd (clear_table run_sql t w)
  end.

(** A caller that makes the requests one after the other and goes on after
    an exception. *)
Definition serve_all (rs : list request) (w : world DB) : world DB :=
  fold_left (fun w' r => serve r w') rs w.

End Callers.

(** From [w] to [w'] the class attributes and the environment are kept, no
    connection is opened, at most one statement is sent, and the database is
    the same when none is. *)
Definition one_call {DB : Type} (w w' : world DB) : Prop :=
  same_process w w'
  /\ exists sent : list call,
      calls w' = (calls w ++ sent)%list
      /\ connects sent = 0%nat
      /\ (executions sent <= 1)%nat
      /\ (executions sent = 0%nat -> database w' = database w).

(** The five error descriptors of the module. *)
Definition descriptor (d : pyval) : Prop :=
  In d [table_name_error; columns_error; where_error; columns_and_values_error;
        keys_error].

(** The exception of a method called when no connection has been opened. *)
Definition no_connection : exn :=
  AttributeError "'NoneType' object has no attribute 'cursor'".

(** The ways in which a call [r] of [insert], [update], [delete] or
    [clear_table] from [w] can end: a descriptor and nothing done; no
    connection; the descriptor of the keys after a cursor was taken; an
    exception of [str] after a cursor was taken; one statement sent. *)
Definition statement_ends {DB : Type}
           (run_sql : string -> DB -> DB * (exn + option (list pyval)))
           (w : world DB) (r : outcome pyval * world DB) : Prop :=
  (exists d, descriptor d /\ r = (Returns d, w))
  \/ (_connection w = None /\ r = (Raises no_connection, w))
  \/ (exists c, _connection w = Some c
                /\ r = (Returns keys_error, log (Cursor (conn_id c)) w))
  \/ (exists c e, _connection w = Some c
                  /\ r = (Raises e, log (Cursor (conn_id c)) w))
  \/ (exists c q, _connection w = Some c /\ executes run_sql q (conn_id c) w r).

(** The value returned by a call [r] from [w] tells what was done: [None]
    after one statement was sent, a descriptor after none was and with the
    database as it was. *)
Definition none_means_sent {DB : Type} (w : world DB)
           (r : outcome pyval * world DB) : Prop :=
  forall v, fst r = Returns v ->
    (v = PNone /\ executions (calls (snd r)) = S (executions (calls w)))
    \/ (descriptor v /\ executions (calls (snd r)) = executions (calls w)
        /\ database (snd r) = database w).

(** * Properties *)

(** ** The builtins on strings *)

Lemma append_assoc (a b c : string) : (a ++ b) ++ c = a ++ b ++ c.
Proof. induction a as [|x a IH]; simpl; [reflexivity | now rewrite IH]. Qed.

Lemma join_from_strs (i : nat) (l : list string) :
  join_from i (strs l) = Returns l.
Proof.
  revert i; induction l as [|s l IH]; intro i; simpl.
  - reflexivity.
  - now rewrite IH.
Qed.

Lemma str_join_strs (sep : string) (l : list string) :
  str_join sep (strs l) = Returns (concat_sep sep l).
Proof. unfold str_join; now rewrite join_from_strs. Qed.

Lemma check_columns_strs (l : list string) : check_columns (strs l) = None.
Proof. induction l as [|s l IH]; simpl; auto. Qed.

Lemma dict_keys_fields (fields : list (string * pyval)) :
  dict_keys (map (fun kv => (PStr (fst kv), snd kv)) fields) = strs (map fst fields).
Proof. unfold dict_keys, strs. now rewrite !map_map. Qed.

Lemma dict_values_fields (fields : list (string * pyval)) :
  dict_values (map (fun kv => (PStr (fst kv), snd kv)) fields)
  = map snd fields.
Proof. unfold dict_values. now rewrite map_map. Qed.

(** The two loops build the list of the serialized values, in order, and
    stop at the first value that [str] refuses. *)
Lemma insert_values_acc (i : interpreter) (todo : list pyval) (values : list string) :
  insert_values i todo values
  = match serialize_all i todo with
    | Returns texts => Returns (values ++ texts)%list
    | Raises e => Raises e
    end.
Proof.
  unfold serialize_all.
  revert values; induction todo as [|v todo IH]; intro values; simpl.
  - now rewrite app_nil_r.
  - destruct (is_str v) eqn:Hv; simpl.
    + destruct v; try discriminate. simpl. rewrite IH.
      destruct (sequence (map (serialize_value i) todo)); [| reflexivity].
      now rewrite <- app_assoc.
    + assert (Hs : serialize_value i v = py_str i v)
        by (destruct v; try reflexivity; discriminate).
      rewrite Hs. destruct (py_str i v) as [text | e]; [| reflexivity].
      rewrite IH. destruct (sequence (map (serialize_value i) todo)); [| reflexivity].
      now rewrite <- app_assoc.
Qed.

Lemma update_values_acc (i : interpreter) (todo : list pyval) (values : list string) :
  update_values i todo values
  = match serialize_all i todo with
    | Returns texts => Returns (values ++ texts)%list
    | Raises e => Raises e
    end.
Proof.
  unfold serialize_all.
  revert values; induction todo as [|v todo IH]; intro values; simpl.
  - now rewrite app_nil_r.
  - destruct (is_str v) eqn:Hv; simpl.
    + destruct v; try discriminate. simpl. rewrite IH.
      destruct (sequence (map (serialize_value i) todo)); [| reflexivity].
      now rewrite <- app_assoc.
    + assert (Hs : serialize_value i v = py_str i v)
        by (destruct v; try reflexivity; discriminate).
      rewrite Hs. destruct (py_str i v) as [text | e]; [| reflexivity].
      rewrite IH. destruct (sequence (map (serialize_value i) todo)); [| reflexivity].
      now rewrite <- app_assoc.
Qed.

(** The i-th name with the i-th text. *)
Lemma assignments_strs (names texts : list string) :
  assignments (strs names) texts
  = map (fun kt => fst kt ++ "=" ++ snd kt) (combine names texts).
Proof.
  unfold assignments, strs.
  revert texts; induction names as [|k names IH]; intros [|x texts]; simpl in *;
    try reflexivity.
  f_equal. apply IH.
Qed.

Lemma sequence_length {A : Type} (l : list (outcome A)) (r : list A) :
  sequence l = Returns r -> length r = length l.
Proof.
  revert r; induction l as [|[a | e] l IH]; intros r H; simpl in H.
  - injection H as <-. reflexivity.
  - destruct (sequence l) as [others |]; try discriminate.
    injection H as <-. simpl. f_equal. now apply IH.
  - discriminate.
Qed.

Lemma serialize_all_length (i : interpreter) (values : list pyval)
      (texts : list string) :
  serialize_all i values = Returns texts -> length texts = length values.
Proof.
  intro H. apply sequence_length in H. now rewrite length_map in H.
Qed.

(** An integer of one digit is within every limit. *)
Lemma int_str_one_digit (i : interpreter) (z : Z) :
  decimal_digits z = 1%nat -> int_str i z = Returns (str_of_int z).
Proof.
  intro H. unfold int_str. rewrite H.
  destruct (int_max_str_digits i); reflexivity.
Qed.

Section Behaviour.

Context {DB : Type}.
Variable run_sql : string -> DB -> DB * (exn + option (list pyval)).
Variable connect_error : dsn -> DB -> option exn.

Implicit Types (w : world DB) (c : connection) (t : string).

(** ** One statement through the shared connection *)

(** Cursor, execute: what every method that changes the table does once its
    checks have passed. *)
Lemma execute_after_cursor w c q :
  _connection w = Some c ->
  executes run_sql q (conn_id c) w
    (bind connection_cursor
       (fun cursor => bind (cursor_execute run_sql cursor q) (fun _ => ret PNone)) w).
Proof.
  intro Hc. unfold executes, bind, connection_cursor, cursor_execute, ret.
  rewrite Hc; simpl.
  destruct (run_sql q (database w)) as [d [e | rows]]; simpl;
    rewrite <- app_assoc; simpl; repeat split.
Qed.

(** Cursor, execute, fetchall: what [select] does once its checks have
    passed. *)
Lemma fetchall_after_cursor w c q :
  _connection w = Some c ->
  fetches run_sql q (conn_id c) w
    (bind connection_cursor
       (fun cursor => bind (cursor_execute run_sql cursor q) cursor_fetchall) w).
Proof.
  intro Hc. unfold fetches, bind, connection_cursor, cursor_execute, cursor_fetchall.
  rewrite Hc; simpl.
  destruct (run_sql q (database w)) as [d [e | [rows |]]]; simpl;
    rewrite <- ?app_assoc; simpl; repeat split.
Qed.

(** ** [select] *)

Ltac run_fetch Hc :=
  unfold fetches, bind, lift, connection_cursor, cursor_execute, cursor_fetchall;
  rewrite Hc; simpl; rewrite ?str_join_strs; simpl;
  repeat (rewrite !append_assoc; simpl);
  match goal with
  | |- context [run_sql ?q ?d] =>
      destruct (run_sql q d) as [? [? | [? |]]]; simpl;
      rewrite <- ?app_assoc; simpl; repeat split
  end.

Ltac run_execute Hc :=
  unfold executes, bind, lift, connection_cursor, cursor_execute, ret;
  rewrite Hc; simpl; rewrite ?check_columns_strs, ?str_join_strs; simpl;
  repeat (rewrite !append_assoc; simpl);
  match goal with
  | |- context [run_sql ?q ?d] =>
      destruct (run_sql q d) as [? [? | ?]]; simpl;
      rewrite <- ?app_assoc; simpl; repeat split
  end.

(** No columns: every column is selected. *)
Lemma select_star w c t :
  _connection w = Some c ->
  fetches run_sql ("SELECT * FROM " ++ t) (conn_id c) w
    (select run_sql (PStr t) PNone PNone w).
Proof. intro Hc. unfold select; simpl. run_fetch Hc. Qed.

Lemma select_star_where w c t wh :
  _connection w = Some c ->
  fetches run_sql ("SELECT * FROM " ++ t ++ " WHERE " ++ wh) (conn_id c) w
    (select run_sql (PStr t) PNone (PStr wh) w).
Proof.
  intro Hc. unfold select; simpl.
  run_fetch Hc.
Qed.

(** A list of column names: they are joined with a comma and a space, in the
    order given. *)
Lemma select_columns w c t cols :
  _connection w = Some c ->
  fetches run_sql ("SELECT " ++ concat_sep ", " cols ++ " FROM " ++ t) (conn_id c) w
    (select run_sql (PStr t) (PList (strs cols)) PNone w).
Proof. intro Hc. unfold select; simpl. run_fetch Hc. Qed.

Lemma select_columns_where w c t cols wh :
  _connection w = Some c ->
  fetches run_sql
    ("SELECT " ++ concat_sep ", " cols ++ " FROM " ++ t ++ " WHERE " ++ wh)
    (conn_id c) w
    (select run_sql (PStr t) (PList (strs cols)) (PStr wh) w).
Proof.
  intro Hc. unfold select; simpl.
  run_fetch Hc.
Qed.

(** C1: for every string table name [t], [select(t, columns=["a","b"],
    where="x=1")] executes exactly [SELECT a, b FROM t WHERE x=1] (the columns
    joined by a comma in the order given, for every list of column names and
    every filter), and [select(t)] without columns and filter executes exactly
    [SELECT * FROM t]; in both cases the value returned is the sequence of all
    the rows fetched, in order. *)
Theorem select_executes_exact_text w c t :
  _connection w = Some c ->
  fetches run_sql ("SELECT a, b FROM " ++ t ++ " WHERE x=1") (conn_id c) w
    (call_select run_sql [PStr t]
       [("columns", PList [PStr "a"; PStr "b"]); ("where", PStr "x=1")] w)
  /\ (forall cols wh,
        fetches run_sql
          ("SELECT " ++ concat_sep ", " cols ++ " FROM " ++ t ++ " WHERE " ++ wh)
          (conn_id c) w
          (call_select run_sql [PStr t]
             [("columns", PList (strs cols)); ("where", PStr wh)] w))
  /\ fetches run_sql ("SELECT * FROM " ++ t) (conn_id c) w
       (call_select run_sql [PStr t] [] w).
Proof.
  intro Hc. split; [| split].
  - exact (select_columns_where w c t ["a"; "b"] "x=1" Hc).
  - intros cols wh. exact (select_columns_where w c t cols wh Hc).
  - exact (select_star w c t Hc).
Qed.

(** C10: [select] tells an empty list of columns from an absent one: for
    every string table name [t], [select(t, columns=[])] passes the type
    check and executes [SELECT  FROM t], with an empty column list, which is
    not the text [SELECT * FROM t] that [columns=None] executes. *)
Theorem select_empty_columns_is_not_star w c t :
  _connection w = Some c ->
  fetches run_sql ("SELECT  FROM " ++ t) (conn_id c) w
    (select run_sql (PStr t) (PList []) PNone w)
  /\ fst (select run_sql (PStr t) (PList []) PNone w) <> Returns columns_error
  /\ fetches run_sql ("SELECT * FROM " ++ t) (conn_id c) w
       (select run_sql (PStr t) PNone PNone w)
  /\ "SELECT  FROM " ++ t <> "SELECT * FROM " ++ t.
Proof.
  intro Hc.
  assert (He : fetches run_sql ("SELECT  FROM " ++ t) (conn_id c) w
                 (select run_sql (PStr t) (PList []) PNone w))
    by exact (select_columns w c t [] Hc).
  split; [exact He | split; [| split]].
  - destruct He as (_ & _ & He).
    destruct (snd (run_sql ("SELECT  FROM " ++ t) (database w))) as [e | [rows |]];
      destruct He as [_ ->]; discriminate.
  - exact (select_star w c t Hc).
  - simpl. discriminate.
Qed.

(** ** [insert] and [update] *)

Ltac run_fields Hc Ht :=
  unfold fields_dict, executes, bind, lift, with_interp, connection_cursor,
    cursor_execute, ret;
  rewrite Hc; simpl;
  rewrite dict_keys_fields, dict_values_fields, check_columns_strs; simpl;
  rewrite ?str_join_strs; simpl;
  rewrite ?insert_values_acc, ?update_values_acc, Ht; simpl;
  rewrite ?assignments_strs; simpl;
  repeat (rewrite !append_assoc; simpl);
  match goal with
  | |- context [run_sql ?q ?d] =>
      destruct (run_sql q d) as [? [? | ?]]; simpl;
      rewrite <- ?app_assoc; simpl; repeat split
  end.

(** The texts of values that [str] converts whatever the settings are. *)
Ltac plain_texts :=
  unfold serialize_all; simpl; unfold py_repr; simpl;
  rewrite ?int_str_one_digit by reflexivity; reflexivity.

Lemma insert_fields w c t fields texts :
  _connection w = Some c ->
  serialize_all (interp w) (map snd fields) = Returns texts ->
  executes run_sql
    ("INSERT INTO " ++ t ++ " (" ++ concat_sep ", " (map fst fields) ++ ") VALUES ("
       ++ concat_sep ", " texts ++ ")")
    (conn_id c) w
    (insert run_sql (PStr t) (fields_dict fields) w).
Proof. intros Hc Ht. unfold insert; simpl. run_fields Hc Ht. Qed.

Lemma update_fields w c t fields texts :
  _connection w = Some c ->
  serialize_all (interp w) (map snd fields) = Returns texts ->
  executes run_sql
    ("UPDATE " ++ t ++ " SET "
       ++ concat_sep ", "
            (map (fun kt => fst kt ++ "=" ++ snd kt) (combine (map fst fields) texts)))
    (conn_id c) w
    (update run_sql (PStr t) (fields_dict fields) PNone w).
Proof. intros Hc Ht. unfold update; simpl. run_fields Hc Ht. Qed.

Lemma update_fields_where w c t fields texts wh :
  _connection w = Some c ->
  serialize_all (interp w) (map snd fields) = Returns texts ->
  executes run_sql
    ("UPDATE " ++ t ++ " SET "
       ++ concat_sep ", "
            (map (fun kt => fst kt ++ "=" ++ snd kt) (combine (map fst fields) texts))
       ++ " WHERE " ++ wh)
    (conn_id c) w
    (update run_sql (PStr t) (fields_dict fields) (PStr wh) w).
Proof. intros Hc Ht. unfold update; simpl. run_fields Hc Ht. Qed.

(** A value that [str] refuses: the exception leaves the method after the
    cursor has been taken, and nothing is sent. *)
Lemma fields_refused w c t fields (e : exn) (where_ : pyval) :
  _connection w = Some c ->
  serialize_all (interp w) (map snd fields) = Raises e ->
  is_none where_ || is_str where_ = true ->
  insert run_sql (PStr t) (fields_dict fields) w
  = (Raises e, log (Cursor (conn_id c)) w)
  /\ update run_sql (PStr t) (fields_dict fields) where_ w
     = (Raises e, log (Cursor (conn_id c)) w).
Proof.
  intros Hc Ht Hw.
  assert (Hw' : negb (is_none where_) && negb (is_str where_) = false)
    by (destruct (is_none where_), (is_str where_); simpl in *; congruence).
  unfold insert, update; simpl. rewrite Hw'.
  unfold fields_dict, bind, lift, with_interp, connection_cursor, ret.
  rewrite Hc; simpl.
  rewrite dict_keys_fields, dict_values_fields, check_columns_strs; simpl.
  rewrite str_join_strs; simpl.
  rewrite insert_values_acc, update_values_acc, Ht. split; reflexivity.
Qed.



(** C9: [insert] and [update] serialize values the same way.  For every
    dict with string keys (each key once), on a connected gateway: when the serialization
    rule gives texts for the values, the statement of [insert] lists these
    texts after [VALUES] and the statement of [update] assigns the same
    texts, the i-th to the i-th column; when [str] refuses a value, both
    methods raise its exception, after the cursor and before any statement.
    The two loops are the same function of the values. *)
Theorem update_serializes_like_insert w c t (fields : list (string * pyval)) :
  _connection w = Some c ->
  NoDup (map fst fields) ->
  match serialize_all (interp w) (map snd fields) with
  | Returns texts =>
      length texts = length fields
      /\ executes run_sql
           ("INSERT INTO " ++ t ++ " (" ++ concat_sep ", " (map fst fields)
              ++ ") VALUES (" ++ concat_sep ", " texts ++ ")")
           (conn_id c) w
           (insert run_sql (PStr t) (fields_dict fields) w)
      /\ executes run_sql
           ("UPDATE " ++ t ++ " SET "
              ++ concat_sep ", "
                   (map (fun kt => fst kt ++ "=" ++ snd kt)
                      (combine (map fst fields) texts)))
           (conn_id c) w
           (update run_sql (PStr t) (fields_dict fields) PNone w)
  | Raises e =>
      insert run_sql (PStr t) (fields_dict fields) w
      = (Raises e, log (Cursor (conn_id c)) w)
      /\ update run_sql (PStr t) (fields_dict fields) PNone w
         = (Raises e, log (Cursor (conn_id c)) w)
  end
  /\ (forall i values, update_values i values [] = insert_values i values [])
  /\ executes run_sql
       ("INSERT INTO " ++ t ++ " (a, b, c) VALUES (2, "
          ++ String dquote ("x" ++ String dquote ", None)"))
       (conn_id c) w
       (insert run_sql (PStr t)
          (PDict [(PStr "a", PInt 2); (PStr "b", PStr "x"); (PStr "c", PNone)]) w)
  /\ executes run_sql
       ("UPDATE " ++ t ++ " SET a=2, b="
          ++ String dquote ("x" ++ String dquote ", c=None"))
       (conn_id c) w
       (update run_sql (PStr t)
          (PDict [(PStr "a", PInt 2); (PStr "b", PStr "x"); (PStr "c", PNone)])
          PNone w).
Proof.
  intros Hc _.
  assert (H3 : serialize_all (interp w)
                 (map snd [("a", PInt 2); ("b", PStr "x"); ("c", PNone)])
               = Returns ["2"; String dquote ("x" ++ String dquote ""); "None"])
    by plain_texts.
  split; [| split; [| split]].
  - destruct (serialize_all (interp w) (map snd fields)) as [texts | e] eqn:Ht.
    + split; [| split].
      * rewrite (serialize_all_length _ _ _ Ht). apply length_map.
      * exact (insert_fields w c t fields texts Hc Ht).
      * exact (update_fields w c t fields texts Hc Ht).
    + exact (fields_refused w c t fields e PNone Hc Ht eq_refl).
  - intros i values. now rewrite update_values_acc, insert_values_acc.
  - exact (insert_fields w c t [("a", PInt 2); ("b", PStr "x"); ("c", PNone)] _ Hc H3).
  - exact (update_fields w c t [("a", PInt 2); ("b", PStr "x"); ("c", PNone)] _ Hc H3).
Qed.

(** ** [delete] and [clear_table] *)

(** C5: for every string table name [t], [clear_table(t)] executes exactly
    [DELETE FROM t], with no WHERE clause. *)
Theorem clear_table_executes_delete_from w c t :
  _connection w = Some c ->
  executes run_sql ("DELETE FROM " ++ t) (conn_id c) w
    (call_clear_table run_sql [PStr t] [] w).
Proof.
  intro Hc. unfold call_clear_table, clear_table; simpl.
  exact (execute_after_cursor w c ("DELETE FROM " ++ t) Hc).
Qed.

(** C4: for every string table name [t] and string filter [wh],
    [delete(t, wh)] executes exactly [DELETE FROM t WHERE wh]; the filter is a
    required argument without default: a call that omits it raises the
    missing-argument [TypeError] and executes nothing (it is no delete-all),
    and a filter that is not a string returns the error descriptor and
    executes nothing. *)
Theorem delete_requires_where w c t wh :
  _connection w = Some c ->
  executes run_sql ("DELETE FROM " ++ t ++ " WHERE " ++ wh) (conn_id c) w
    (call_delete run_sql [PStr t; PStr wh] [] w)
  /\ p_default (nth 1 delete_sig (optional "" PNone)) = None
  /\ (exists msg, call_delete run_sql [PStr t] [] w = (Raises (TypeError msg), w))
  /\ (forall v, is_str v = false ->
             call_delete run_sql [PStr t; v] [] w = (Returns where_error, w)).
Proof.
  intro Hc. split; [| split; [| split]].
  - change (call_delete run_sql [PStr t; PStr wh] [] w)
      with (delete run_sql (PStr t) (PStr wh) w).
    unfold delete; simpl. run_execute Hc.
  - reflexivity.
  - eexists; reflexivity.
  - intros v Hv.
    change (call_delete run_sql [PStr t; v] [] w) with (delete run_sql (PStr t) v w).
    unfold delete; simpl. now rewrite Hv.
Qed.

(** ** Validation of the table name *)

(** C7: for each of [select], [insert], [update], [delete] and
    [clear_table], a table name that is not a string makes the method return
    the [table_name] error descriptor in the state it was called in: the
    connection receives no [cursor] and no [execute] call and the database is
    unchanged. *)
Theorem non_string_table_name_is_refused w (table_name a b : pyval) :
  is_str table_name = false ->
  select run_sql table_name a b w = (Returns table_name_error, w)
  /\ insert run_sql table_name a w = (Returns table_name_error, w)
  /\ update run_sql table_name a b w = (Returns table_name_error, w)
  /\ delete run_sql table_name a w = (Returns table_name_error, w)
  /\ clear_table run_sql table_name w = (Returns table_name_error, w).
Proof.
  intro Ht. unfold select, insert, update, delete, clear_table.
  rewrite Ht; simpl. repeat split.
Qed.

(** ** Validation of the other arguments *)

(** The checks that the methods make before they take a cursor: each one
    returns its descriptor in the state the method was called in. *)
Lemma checked_arguments_are_refused w t (a b : pyval) :
  (is_none a = false -> is_list a = false -> is_tuple a = false ->
   select run_sql (PStr t) a b w = (Returns columns_error, w))
  /\ (is_none b = false -> is_str b = false ->
      select run_sql (PStr t) PNone b w = (Returns where_error, w))
  /\ (is_dict a = false ->
      insert run_sql (PStr t) a w = (Returns columns_and_values_error, w))
  /\ (is_dict a = false ->
      update run_sql (PStr t) a b w = (Returns columns_and_values_error, w))
  /\ (is_str b = false -> delete run_sql (PStr t) b w = (Returns where_error, w)).
Proof.
  repeat split.
  - intros H1 H2 H3. unfold select; simpl. rewrite H1, H2, H3. reflexivity.
  - intros H1 H2. unfold select; simpl. rewrite H1, H2. reflexivity.
  - intro H. destruct a; simpl in *; try reflexivity; discriminate.
  - intro H. destruct a; simpl in *; try reflexivity; discriminate.
  - intro H. unfold delete; simpl. rewrite H. reflexivity.
Qed.

(** C6, at the input [select(t, columns=[1])]: the list passes the check of
    [columns], no check looks at its items, and the call raises: the
    [TypeError] of [', '.join], or the [AttributeError] of the missing
    connection; no error descriptor is returned. *)
Theorem select_raises_on_non_string_column w t :
  fst (select run_sql (PStr t) (PList [PInt 1]) PNone w)
  = match _connection w with
    | Some _ => Raises (TypeError "sequence item 0: expected str instance, int found")
    | None => Raises (AttributeError "'NoneType' object has no attribute 'cursor'")
    end
  /\ forall v, fst (select run_sql (PStr t) (PList [PInt 1]) PNone w) <> Returns v.
Proof.
  unfold select, bind, lift, connection_cursor; simpl.
  destruct (_connection w); simpl; split; try reflexivity; discriminate.
Qed.

(** ** Construction *)

Lemma new_again w (i : nat) :
  _instance w = Some i ->
  __new__ connect_error w = (Returns (Some i), w).
Proof.
  intro Hi. unfold __new__, bind, get_instance, ret.
  rewrite Hi; simpl. now rewrite Hi.
Qed.

Lemma construct_again (n : nat) w (i : nat) :
  _instance w = Some i ->
  construct connect_error n w = (repeat (Returns (Some i)) n, w).
Proof.
  intro Hi. induction n as [|n IH]; simpl.
  - reflexivity.
  - now rewrite (new_again w i Hi), IH.
Qed.

Lemma connects_app (l1 l2 : list call) :
  connects (l1 ++ l2) = (connects l1 + connects l2)%nat.
Proof. unfold connects. now rewrite filter_app, length_app. Qed.

(** The first construction: the environment file is read, the instance is
    recorded, and one connection is asked for. *)
Lemma new_first w :
  _instance w = None ->
  _instance (snd (__new__ connect_error w)) = Some (next_object w)
  /\ connects (calls (snd (__new__ connect_error w))) = S (connects (calls w))
  /\ (forall i, fst (__new__ connect_error w) = Returns i ->
       i = Some (next_object w)
       /\ _connection (snd (__new__ connect_error w))
          = Some {| conn_id := S (next_object w); autocommit := true |}).
Proof.
  intro Hi.
  unfold __new__, bind, get_instance, load_dotenv, object_new, put_instance,
    getenv, psycopg2_connect, put_connection, put_autocommit.
  rewrite Hi; simpl.
  destruct (connect_error _ (database w)) as [e |]; simpl.
  - repeat split.
    + rewrite <- app_assoc, connects_app; simpl. unfold connects at 2; simpl. lia.
    + discriminate.
    + discriminate.
  - repeat split.
    + rewrite <- app_assoc, connects_app; simpl. unfold connects at 2; simpl. lia.
    + congruence.
Qed.

(** C8: constructing the gateway twice yields the same instance and the same
    connection handle: the first construction asks for one connection (and
    turns autocommit on when it gets it), and every construction after it
    returns the recorded instance and leaves the whole process state as it is:
    the same handle, no further connection. *)
Theorem gateway_is_a_singleton w :
  _instance w = None ->
  let first := __new__ connect_error w in
  exists obj : nat,
    _instance (snd first) = Some obj
    /\ connects (calls (snd first)) = S (connects (calls w))
    /\ (forall i, fst first = Returns i ->
         i = Some obj
         /\ exists id, _connection (snd first)
                       = Some {| conn_id := id; autocommit := true |})
    /\ (forall n, construct connect_error n (snd first)
                 = (repeat (Returns (Some obj)) n, snd first))
    /\ __new__ connect_error (snd first) = (Returns (Some obj), snd first).
Proof.
  intros Hi first. destruct (new_first w Hi) as (Hobj & Hconn & Hret).
  exists (next_object w). fold first in Hobj, Hconn, Hret.
  split; [exact Hobj | split; [exact Hconn | split; [| split]]].
  - intros i Hr. destruct (Hret i Hr) as [-> Hc]. split; [reflexivity | eauto].
  - intro n. now apply construct_again.
  - now apply new_again.
Qed.

End Behaviour.

(** * The theorems at concrete inputs *)

(** A run of [select] against the demonstration server: the row comes back
    and the three calls reach connection 1. *)
Example select_demo_run :
  let r := call_select demo_run_sql [PStr "orders"; PTuple [PStr "id"; PStr "name"]]
             [] demo_world in
  fst r = Returns (PList [PTuple [PInt 1; PStr "x"]])
  /\ skipn 2 (calls (snd r))
     = [Cursor 1; Execute 1 "SELECT id, name FROM orders"; Fetchall 1]
  /\ database (snd r) = ["SELECT id, name FROM orders"].
Proof. vm_compute. repeat split. Qed.

(** A string value goes into the statement between double quotes, as it is. *)
Example insert_demo_run :
  database (snd (insert demo_run_sql (PStr "orders")
                   (PDict [(PStr "note", PStr "it's"); (PStr "n", PInt (-3));
                           (PStr "ok", PBool true); (PStr "gone", PNone)])
                   demo_world))
  = ["INSERT INTO orders (note, n, ok, gone) VALUES ("
       ++ String dquote ("it's" ++ String dquote ", -3, True, None)")].
Proof. vm_compute. reflexivity. Qed.

(** A key that is not a string is found after the cursor has been taken. *)
Example insert_demo_bad_key :
  let r := insert demo_run_sql (PStr "orders") (PDict [(PInt 1, PInt 2)]) demo_world in
  fst r = Returns keys_error /\ skipn 2 (calls (snd r)) = [Cursor 1]
  /\ database (snd r) = [].
Proof. vm_compute. repeat split. Qed.

(** When the server refuses the first connection, the instance is recorded
    all the same: the second construction returns it, without a connection,
    and a query on it raises. *)
Example construct_demo_refused :
  let w1 := snd (__new__ demo_connect_error (fresh_world [])) in
  let w2 := snd (__new__ demo_connect_error w1) in
  fst (__new__ demo_connect_error (fresh_world []))
  = Raises (DatabaseError "connection refused")
  /\ fst (__new__ demo_connect_error w1) = Returns (Some 0%nat)
  /\ _connection w2 = None
  /\ connects (calls w2) = 1%nat
  /\ fst (select demo_run_sql (PStr "orders") PNone PNone w2)
     = Raises (AttributeError "'NoneType' object has no attribute 'cursor'").
Proof. vm_compute. repeat split. Qed.

(** The variables of the environment file complete the environment. *)
Example construct_demo_dotenv :
  filter is_connect
    (calls (snd (__new__ demo_connect_error (fresh_world [("DATABASE_NAME", "shop")]))))
  = [Connect {| dbname := Some "shop"; host := None; user := None;
                password := None; port := Some "5432" |}].
Proof. vm_compute. reflexivity. Qed.

Lemma select_executes_exact_text_witness :
  fetches demo_run_sql "SELECT a, b FROM orders WHERE x=1" 1 demo_world
    (call_select demo_run_sql [PStr "orders"]
       [("columns", PList [PStr "a"; PStr "b"]); ("where", PStr "x=1")] demo_world)
  /\ fetches demo_run_sql "SELECT * FROM orders" 1 demo_world
       (call_select demo_run_sql [PStr "orders"] [] demo_world).
Proof.
  pose proof (select_executes_exact_text demo_run_sql demo_world _ "orders" eq_refl)
    as (H1 & _ & H2).
  split; [exact H1 | exact H2].
Defined.

Lemma select_empty_columns_is_not_star_witness :
  fetches demo_run_sql "SELECT  FROM orders" 1 demo_world
    (select demo_run_sql (PStr "orders") (PList []) PNone demo_world)
  /\ "SELECT  FROM orders" <> "SELECT * FROM orders".
Proof.
  pose proof (select_empty_columns_is_not_star demo_run_sql demo_world _ "orders" eq_refl)
    as (H1 & _ & _ & H2).
  split; [exact H1 | exact H2].
Defined.



Lemma update_serializes_like_insert_witness :
  executes demo_run_sql
    ("INSERT INTO orders (a, b) VALUES (12, "
       ++ String dquote ("it's" ++ String dquote ")"))
    1 demo_world
    (insert demo_run_sql (PStr "orders")
       (PDict [(PStr "a", PInt 12); (PStr "b", PStr "it's")]) demo_world)
  /\ executes demo_run_sql
       ("UPDATE orders SET a=12, b=" ++ String dquote ("it's" ++ String dquote ""))
       1 demo_world
       (update demo_run_sql (PStr "orders")
          (PDict [(PStr "a", PInt 12); (PStr "b", PStr "it's")]) PNone demo_world).
Proof.
  assert (Hkeys : NoDup (map fst [("a", PInt 12); ("b", PStr "it's")]))
    by (repeat constructor; simpl; intuition discriminate).
  pose proof (update_serializes_like_insert demo_run_sql demo_world _ "orders"
                [("a", PInt 12); ("b", PStr "it's")] eq_refl Hkeys) as (H & _).
  vm_compute serialize_all in H. destruct H as (_ & H1 & H2).
  split; [exact H1 | exact H2].
Defined.



Lemma delete_requires_where_witness :
  executes demo_run_sql "DELETE FROM orders WHERE id=5" 1 demo_world
    (call_delete demo_run_sql [PStr "orders"; PStr "id=5"] [] demo_world)
  /\ (exists msg, call_delete demo_run_sql [PStr "orders"] [] demo_world
                   = (Raises (TypeError msg), demo_world))
  /\ call_delete demo_run_sql [PStr "orders"; PInt 5] [] demo_world
     = (Returns where_error, demo_world).
Proof.
  pose proof (delete_requires_where demo_run_sql demo_world _ "orders" "id=5" eq_refl)
    as (H1 & _ & H2 & H3).
  split; [exact H1 | split; [exact H2 | exact (H3 (PInt 5) eq_refl)]].
Defined.

Lemma clear_table_executes_delete_from_witness :
  executes demo_run_sql "DELETE FROM orders" 1 demo_world
    (call_clear_table demo_run_sql [PStr "orders"] [] demo_world).
Proof.
  exact (clear_table_executes_delete_from demo_run_sql demo_world _ "orders" eq_refl).
Defined.

Lemma non_string_table_name_is_refused_witness :
  is_str (PInt 7) = false
  /\ select demo_run_sql (PInt 7) PNone PNone demo_world
     = (Returns table_name_error, demo_world)
  /\ clear_table demo_run_sql (PInt 7) demo_world
     = (Returns table_name_error, demo_world).
Proof.
  pose proof (non_string_table_name_is_refused demo_run_sql demo_world
                (PInt 7) PNone PNone eq_refl) as (H1 & _ & _ & _ & H5).
  split; [reflexivity | split; [exact H1 | exact H5]].
Defined.

Lemma gateway_is_a_singleton_witness :
  _instance (fresh_world [("DATABASE_NAME", "shop")]) = None
  /\ exists obj : nat,
      fst (__new__ demo_connect_error (fresh_world [("DATABASE_NAME", "shop")]))
      = Returns (Some obj)
      /\ __new__ demo_connect_error
           (snd (__new__ demo_connect_error (fresh_world [("DATABASE_NAME", "shop")])))
         = (Returns (Some obj),
            snd (__new__ demo_connect_error (fresh_world [("DATABASE_NAME", "shop")]))).
Proof.
  split; [reflexivity |].
  destruct (gateway_is_a_singleton demo_connect_error
              (fresh_world [("DATABASE_NAME", "shop")]) eq_refl)
    as (obj & Hobj & _ & _ & _ & Hagain).
  exists obj. split; [| exact Hagain].
  simpl in Hobj. injection Hobj as <-. reflexivity.
Defined.

(** * Further behaviour of the methods *)

Lemma join_from_non_str (i : nat) (pre : list string) (v : pyval) (rest : list pyval) :
  is_str v = false ->
  join_from i (strs pre ++ v :: rest)
  = Raises (TypeError ("sequence item " ++ str_of_int (Z.of_nat (i + length pre))
                       ++ ": expected str instance, " ++ type_name v ++ " found")).
Proof.
  intro Hv. revert i; induction pre as [|s pre IH]; intro i; simpl.
  - rewrite Nat.add_0_r. destruct v; try reflexivity; discriminate.
  - rewrite IH. now rewrite Nat.add_succ_r.
Qed.

Lemma check_columns_non_str (keys : list pyval) :
  forallb is_str keys = false -> check_columns keys = Some keys_error.
Proof.
  induction keys as [|k keys IH]; simpl; intro H.
  - discriminate.
  - destruct (is_str k); simpl in *; auto.
Qed.

Lemma check_columns_all_str (keys : list pyval) :
  check_columns keys = None -> exists names, keys = strs names.
Proof.
  induction keys as [|k keys IH]; simpl; intro H.
  - now exists [].
  - destruct k; simpl in H; try discriminate.
    destruct (IH H) as [names ->]. now exists (s :: names).
Qed.

Lemma join_from_returns (i : nat) (items : list pyval) (parts : list string) :
  join_from i items = Returns parts -> items = strs parts.
Proof.
  revert i parts; induction items as [|v items IH]; intros i parts H; simpl in H.
  - injection H as <-. reflexivity.
  - destruct v; try discriminate.
    destruct (join_from (S i) items) as [ps |] eqn:Hj; try discriminate.
    injection H as <-. simpl. now rewrite (IH _ _ Hj).
Qed.

Lemma join_from_raises (i : nat) (items : list pyval) (e : exn) :
  join_from i items = Raises e -> exists msg, e = TypeError msg.
Proof.
  revert i; induction items as [|v items IH]; intros i H; simpl in H.
  - discriminate.
  - destruct v; try (injection H as <-; eauto).
    destruct (join_from (S i) items) as [ps |] eqn:Hj; try discriminate.
    injection H as <-. eauto.
Qed.

Lemma executions_app (l1 l2 : list call) :
  executions (l1 ++ l2) = (executions l1 + executions l2)%nat.
Proof. unfold executions. now rewrite filter_app, length_app. Qed.

Lemma same_process_refl {DB : Type} (w : world DB) : same_process w w.
Proof. repeat split. Qed.

Lemma same_process_trans {DB : Type} (w1 w2 w3 : world DB) :
  same_process w1 w2 -> same_process w2 w3 -> same_process w1 w3.
Proof.
  unfold same_process. intros (A1 & A2 & A3 & A4 & A5) (B1 & B2 & B3 & B4 & B5).
  repeat split; congruence.
Qed.

Lemma one_call_refl {DB : Type} (w : world DB) : one_call w w.
Proof.
  split; [apply same_process_refl |].
  exists []. rewrite app_nil_r. repeat split. auto.
Qed.

Lemma one_call_cursor {DB : Type} (w : world DB) (k : nat) :
  one_call w (log (Cursor k) w).
Proof.
  split; [repeat split |].
  exists [Cursor k]. repeat split. auto.
Qed.

Lemma env_lookup_app (name k v : string) (env : list (string * string)) :
  env_lookup name (env ++ [(k, v)])
  = match env_lookup name env with
    | Some x => Some x
    | None => if String.eqb k name then Some v else None
    end.
Proof.
  induction env as [| [k' v'] env IH]; simpl.
  - reflexivity.
  - destruct (String.eqb k' name); [reflexivity | exact IH].
Qed.

(** A variable of the process environment wins over the one of the file. *)
Lemma env_lookup_with_dotenv (name : string) (file env : list (string * string)) :
  env_lookup name (with_dotenv file env)
  = match env_lookup name env with
    | Some v => Some v
    | None => env_lookup name file
    end.
Proof.
  revert env; induction file as [| [k v] file IH]; intro env; simpl.
  - now destruct (env_lookup name env).
  - destruct (env_lookup k env) as [x |] eqn:Hk.
    + rewrite IH. destruct (env_lookup name env) eqn:Hn; [reflexivity |].
      destruct (String.eqb k name) eqn:E; [| reflexivity].
      apply String.eqb_eq in E. congruence.
    + rewrite IH, env_lookup_app.
      destruct (env_lookup name env); [reflexivity |].
      now destruct (String.eqb k name).
Qed.

Section Edges.

Context {DB : Type}.
Variable run_sql : string -> DB -> DB * (exn + option (list pyval)).
Variable connect_error : dsn -> DB -> option exn.

Implicit Types (w : world DB) (c : connection) (t : string).

(** X1: [select] with a filter and no columns, and with columns and no filter:
    the statement is [SELECT * FROM t WHERE wh], resp. [SELECT <cols> FROM t],
    and the rows fetched are returned. *)
Theorem select_filter_only_and_columns_only w c t cols wh :
  _connection w = Some c ->
  fetches run_sql ("SELECT * FROM " ++ t ++ " WHERE " ++ wh) (conn_id c) w
    (call_select run_sql [PStr t] [("where", PStr wh)] w)
  /\ fetches run_sql ("SELECT " ++ concat_sep ", " cols ++ " FROM " ++ t) (conn_id c) w
       (call_select run_sql [PStr t; PList (strs cols)] [] w).
Proof.
  intro Hc. split.
  - exact (select_star_where run_sql w c t wh Hc).
  - exact (select_columns run_sql w c t cols Hc).
Qed.

(** X2: a tuple of columns is treated as the list of the same items, whatever
    the items and the other arguments are. *)
Theorem select_tuple_as_list w (table_name where_ : pyval) (items : list pyval) :
  select run_sql table_name (PTuple items) where_ w
  = select run_sql table_name (PList items) where_ w.
Proof. unfold select; simpl. reflexivity. Qed.

(** X3: a column that is not a string, at any position of the list: [select]
    takes a cursor and then raises the [TypeError] of [join], which names the
    position of the first such item; no statement is sent. *)
Theorem select_non_string_item w c t (pre : list string) (v : pyval)
        (rest : list pyval) (where_ : pyval) :
  _connection w = Some c ->
  is_str v = false ->
  is_none where_ || is_str where_ = true ->
  select run_sql (PStr t) (PList (strs pre ++ v :: rest)) where_ w
  = (Raises (TypeError ("sequence item " ++ str_of_int (Z.of_nat (length pre))
                        ++ ": expected str instance, " ++ type_name v ++ " found")),
     log (Cursor (conn_id c)) w).
Proof.
  intros Hc Hv Hw. unfold select; simpl.
  assert (Hw' : negb (is_none where_) && negb (is_str where_) = false)
    by (destruct (is_none where_), (is_str where_); simpl in *; congruence).
  rewrite Hw'.
  unfold bind, lift, connection_cursor, str_join. rewrite Hc; simpl.
  now rewrite (join_from_non_str 0 pre v rest Hv).
Qed.

(** X4: a key that is not a string, at any position of the dict: [insert] and
    [update] return the descriptor of the keys, after they have taken a
    cursor; no statement is sent. *)
Theorem non_string_key_is_refused_after_cursor w c t
        (entries : list (pyval * pyval)) (where_ : pyval) :
  _connection w = Some c ->
  forallb is_str (dict_keys entries) = false ->
  is_none where_ || is_str where_ = true ->
  insert run_sql (PStr t) (PDict entries) w
  = (Returns keys_error, log (Cursor (conn_id c)) w)
  /\ update run_sql (PStr t) (PDict entries) where_ w
     = (Returns keys_error, log (Cursor (conn_id c)) w).
Proof.
  intros Hc Hk Hw.
  assert (Hw' : negb (is_none where_) && negb (is_str where_) = false)
    by (destruct (is_none where_), (is_str where_); simpl in *; congruence).
  unfold insert, update; simpl. rewrite Hw'.
  unfold bind, connection_cursor, ret. rewrite Hc; simpl.
  now rewrite (check_columns_non_str _ Hk).
Qed.

(** *** Without a connection *)

(** X5: when no connection has been opened, a method whose arguments pass the
    checks made before the cursor raises [AttributeError] and leaves the
    process as it is; [insert] does so even when a key is not a string, as it
    takes the cursor before it looks at the keys. *)
Theorem methods_without_connection w t (columns where_ : pyval)
        (entries : list (pyval * pyval)) (wh : string) :
  _connection w = None ->
  is_none columns || is_list columns || is_tuple columns = true ->
  is_none where_ || is_str where_ = true ->
  select run_sql (PStr t) columns where_ w = (Raises no_connection, w)
  /\ insert run_sql (PStr t) (PDict entries) w = (Raises no_connection, w)
  /\ update run_sql (PStr t) (PDict entries) where_ w = (Raises no_connection, w)
  /\ delete run_sql (PStr t) (PStr wh) w = (Raises no_connection, w)
  /\ clear_table run_sql (PStr t) w = (Raises no_connection, w).
Proof.
  intros Hc Hcols Hw.
  assert (Hw' : negb (is_none where_) && negb (is_str where_) = false)
    by (destruct (is_none where_), (is_str where_); simpl in *; congruence).
  assert (Hcols' : negb (is_none columns) && negb (is_list columns)
                   && negb (is_tuple columns) = false)
    by (destruct (is_none columns), (is_list columns), (is_tuple columns);
        simpl in *; congruence).
  unfold select, insert, update, delete, clear_table; simpl.
  rewrite Hw', Hcols'.
  unfold bind, connection_cursor. rewrite Hc. repeat split.
Qed.

(** *** The order of the checks *)

(** X6: when several arguments are wrong, the descriptor is the one of the first
    check that fails: [columns] before [where] in [select]; in [update] the
    type of [columns_and_values], then [where], and the keys last, so a wrong
    filter is reported before a wrong key and before any cursor is taken. *)
Theorem first_failed_check_is_reported w t (columns where_ cv : pyval)
        (entries : list (pyval * pyval)) :
  is_none where_ || is_str where_ = false ->
  (is_none columns || is_list columns || is_tuple columns = false ->
   select run_sql (PStr t) columns where_ w = (Returns columns_error, w))
  /\ (is_dict cv = false ->
      update run_sql (PStr t) cv where_ w = (Returns columns_and_values_error, w))
  /\ update run_sql (PStr t) (PDict entries) where_ w = (Returns where_error, w)
  /\ delete run_sql (PStr t) where_ w = (Returns where_error, w).
Proof.
  intro Hw.
  assert (Hw' : negb (is_none where_) && negb (is_str where_) = true)
    by (destruct (is_none where_), (is_str where_); simpl in *; congruence).
  assert (Hs : is_str where_ = false)
    by (destruct (is_none where_), (is_str where_); simpl in *; congruence).
  repeat split.
  - intro Hcols. unfold select; simpl.
    destruct (is_none columns), (is_list columns), (is_tuple columns);
      simpl in *; try discriminate; reflexivity.
  - intro Hd. destruct cv; simpl in *; try reflexivity; discriminate.
  - unfold update; simpl. now rewrite Hw'.
  - unfold delete; simpl. now rewrite Hs.
Qed.

(** *** What one call can do *)

Lemma executes_one_call w q k (r : outcome pyval * world DB) :
  executes run_sql q k w r -> one_call w (snd r).
Proof.
  intros (Hcalls & _ & Hsame & _). split; [exact Hsame |].
  exists [Cursor k; Execute k q]. split; [exact Hcalls |].
  repeat split; auto. discriminate.
Qed.

Lemma fetches_one_call w q k (r : outcome pyval * world DB) :
  fetches run_sql q k w r -> one_call w (snd r).
Proof.
  intros (_ & Hsame & H). split; [exact Hsame |].
  destruct (snd (run_sql q (database w))) as [e | [rows |]]; destruct H as [Hcalls _].
  - exists [Cursor k; Execute k q]. repeat split; auto. discriminate.
  - exists [Cursor k; Execute k q; Fetchall k]. repeat split; auto. discriminate.
  - exists [Cursor k; Execute k q; Fetchall k]. repeat split; auto. discriminate.
Qed.

(** The four ways in which [select] can end. *)
Lemma select_cases w (table_name columns where_ : pyval) :
  (exists d, descriptor d
             /\ select run_sql table_name columns where_ w = (Returns d, w))
  \/ (_connection w = None
      /\ select run_sql table_name columns where_ w = (Raises no_connection, w))
  \/ (exists c msg,
        _connection w = Some c
        /\ select run_sql table_name columns where_ w
           = (Raises (TypeError msg), log (Cursor (conn_id c)) w))
  \/ (exists c q,
        _connection w = Some c
        /\ fetches run_sql q (conn_id c) w
             (select run_sql table_name columns where_ w)).
Proof.
  destruct (is_str table_name) eqn:Ht.
  2: { left. exists table_name_error. split; [left; reflexivity |].
       unfold select. now rewrite Ht. }
  destruct table_name as [| | | t | | | |]; try discriminate.
  destruct (negb (is_none columns) && negb (is_list columns)
            && negb (is_tuple columns)) eqn:Hcols.
  { left. exists columns_error. split; [right; left; reflexivity |].
    unfold select; simpl. now rewrite Hcols. }
  destruct (negb (is_none where_) && negb (is_str where_)) eqn:Hwh.
  { left. exists where_error. split; [right; right; left; reflexivity |].
    unfold select; simpl. now rewrite Hcols, Hwh. }
  destruct (_connection w) as [c |] eqn:Hc.
  2: { right; left. split; [reflexivity |].
       unfold select; simpl. rewrite Hcols, Hwh.
       unfold bind, connection_cursor. now rewrite Hc. }
  right; right.
  assert (Hlist : forall items,
             (exists msg,
                 select run_sql (PStr t) (PList items) where_ w
                 = (Raises (TypeError msg), log (Cursor (conn_id c)) w))
             \/ (exists q, fetches run_sql q (conn_id c) w
                             (select run_sql (PStr t) (PList items) where_ w))).
  { intro items. destruct (join_from 0 items) as [parts | e] eqn:Hj.
    - right. apply join_from_returns in Hj; subst items.
      destruct where_; simpl in Hwh; try discriminate.
      + eexists. exact (select_columns run_sql w c t parts Hc).
      + eexists. exact (select_columns_where run_sql w c t parts s Hc).
    - left. destruct (join_from_raises _ _ _ Hj) as [msg ->]. exists msg.
      unfold select; simpl. rewrite Hwh.
      unfold bind, lift, connection_cursor, str_join. rewrite Hc; simpl.
      now rewrite Hj. }
  destruct columns; simpl in Hcols; try discriminate.
  - right. exists c. destruct where_; simpl in Hwh; try discriminate.
    + eexists. split; [reflexivity |]. exact (select_star run_sql w c t Hc).
    + eexists. split; [reflexivity |]. exact (select_star_where run_sql w c t s Hc).
  - destruct (Hlist items) as [[msg H] | [q H]].
    + left. exists c, msg. now split.
    + right. exists c, q. now split.
  - change (select run_sql (PStr t) (PTuple items) where_ w)
      with (select run_sql (PStr t) (PList items) where_ w).
    destruct (Hlist items) as [[msg H] | [q H]].
    + left. exists c, msg. now split.
    + right. exists c, q. now split.
Qed.

Ltac descriptor_case d :=
  left; exists d; split; [unfold descriptor; simpl; tauto | ].

Lemma clear_table_cases w (table_name : pyval) :
  statement_ends run_sql w (clear_table run_sql table_name w).
Proof.
  destruct table_name as [| | | t | | | |];
    try (descriptor_case table_name_error; reflexivity).
  destruct (_connection w) as [c |] eqn:Hc.
  - right; right; right; right. exists c. eexists. split; [exact Hc |].
    unfold clear_table; simpl. exact (execute_after_cursor run_sql w c _ Hc).
  - right; left. split; [exact Hc |].
    unfold clear_table, bind, connection_cursor; simpl. now rewrite Hc.
Qed.

Lemma delete_cases w (table_name where_ : pyval) :
  statement_ends run_sql w (delete run_sql table_name where_ w).
Proof.
  destruct table_name as [| | | t | | | |];
    try (descriptor_case table_name_error; reflexivity).
  destruct where_ as [| | | wh | | | |];
    try (descriptor_case where_error; reflexivity).
  destruct (_connection w) as [c |] eqn:Hc.
  - right; right; right; right. exists c. eexists. split; [exact Hc |].
    unfold delete; simpl. exact (execute_after_cursor run_sql w c _ Hc).
  - right; left. split; [exact Hc |].
    unfold delete, bind, connection_cursor; simpl. now rewrite Hc.
Qed.

Lemma check_columns_error (keys : list pyval) (d : pyval) :
  check_columns keys = Some d -> d = keys_error.
Proof.
  induction keys as [| k ks IH]; simpl; intro H.
  - discriminate.
  - destruct (is_str k); simpl in H; [auto | congruence].
Qed.

Lemma insert_cases w (table_name columns_and_values : pyval) :
  statement_ends run_sql w (insert run_sql table_name columns_and_values w).
Proof.
  destruct table_name as [| | | t | | | |];
    try (descriptor_case table_name_error; reflexivity).
  destruct columns_and_values as [| | | | | | entries |];
    try (descriptor_case columns_and_values_error; reflexivity).
  destruct (_connection w) as [c |] eqn:Hc.
  2: { right; left. split; [exact Hc |].
       unfold insert, bind, connection_cursor; simpl. now rewrite Hc. }
  right; right.
  destruct (check_columns (dict_keys entries)) as [d |] eqn:Hk.
  - left. exists c. split; [exact Hc |].
    rewrite (check_columns_error _ _ Hk) in Hk.
    unfold insert, bind, connection_cursor, ret; simpl. rewrite Hc; simpl.
    now rewrite Hk.
  - right. destruct (check_columns_all_str _ Hk) as [names Hn].
    destruct (insert_values (interp w) (dict_values entries) []) as [texts | e] eqn:Hv.
    + right. exists c. eexists. split; [exact Hc |].
      unfold insert, executes, bind, lift, with_interp, connection_cursor,
        cursor_execute, ret; simpl.
      rewrite Hc; simpl. rewrite Hk, Hn, str_join_strs; simpl. rewrite Hv; simpl.
      match goal with
      | |- context [run_sql ?q ?d] =>
          instantiate (1 := q); destruct (run_sql q d) as [? [? | ?]]; simpl;
          rewrite <- ?app_assoc; simpl; repeat split
      end.
    + left. exists c, e. split; [exact Hc |].
      unfold insert, bind, lift, with_interp, connection_cursor, ret; simpl.
      rewrite Hc; simpl. rewrite Hk, Hn, str_join_strs; simpl. now rewrite Hv.
Qed.

Lemma update_cases w (table_name columns_and_values where_ : pyval) :
  statement_ends run_sql w
    (update run_sql table_name columns_and_values where_ w).
Proof.
  destruct table_name as [| | | t | | | |];
    try (descriptor_case table_name_error; reflexivity).
  destruct columns_and_values as [| | | | | | entries |];
    try (descriptor_case columns_and_values_error; reflexivity).
  destruct (negb (is_none where_) && negb (is_str where_)) eqn:Hwh.
  { descriptor_case where_error. unfold update; simpl. now rewrite Hwh. }
  destruct (_connection w) as [c |] eqn:Hc.
  2: { right; left. split; [exact Hc |].
       unfold update, bind, connection_cursor; simpl. now rewrite Hwh, Hc. }
  right; right.
  destruct (check_columns (dict_keys entries)) as [d |] eqn:Hk.
  - left. exists c. split; [exact Hc |].
    rewrite (check_columns_error _ _ Hk) in Hk.
    unfold update, bind, connection_cursor, ret; simpl. rewrite Hwh, Hc; simpl.
    now rewrite Hk.
  - right.
    destruct (update_values (interp w) (dict_values entries) []) as [texts | e] eqn:Hv.
    + right. exists c. eexists. split; [exact Hc |].
      unfold update, executes, bind, lift, with_interp, connection_cursor,
        cursor_execute, ret; simpl.
      rewrite Hwh, Hc; simpl. rewrite Hk; simpl. rewrite Hv; simpl.
      match goal with
      | |- context [run_sql ?q ?d] =>
          instantiate (1 := q); destruct (run_sql q d) as [? [? | ?]]; simpl;
          rewrite <- ?app_assoc; simpl; repeat split
      end.
    + left. exists c, e. split; [exact Hc |].
      unfold update, bind, lift, with_interp, connection_cursor, ret; simpl.
      rewrite Hwh, Hc; simpl. rewrite Hk; simpl. now rewrite Hv.
Qed.

Lemma statement_ends_one_call w (r : outcome pyval * world DB) :
  statement_ends run_sql w r -> one_call w (snd r).
Proof.
  intros [(d & _ & ->) | [(_ & ->) | [(c & _ & ->) | [(c & e & _ & ->)
                                                    | (c & q & _ & H)]]]]; simpl.
  - apply one_call_refl.
  - apply one_call_refl.
  - apply one_call_cursor.
  - apply one_call_cursor.
  - exact (executes_one_call w q (conn_id c) r H).
Qed.

Lemma select_one_call w (table_name columns where_ : pyval) :
  one_call w (snd (select run_sql table_name columns where_ w)).
Proof.
  destruct (select_cases w table_name columns where_)
    as [(d & _ & ->) | [(_ & ->) | [(c & msg & _ & ->) | (c & q & _ & H)]]]; simpl.
  - apply one_call_refl.
  - apply one_call_refl.
  - apply one_call_cursor.
  - exact (fetches_one_call w q (conn_id c) _ H).
Qed.

(** X7: whatever the arguments and the state, a call of a method keeps the class
    attributes and the environment, opens no connection, sends at most one
    statement, and leaves the database alone when it sends none. *)
Theorem methods_send_at_most_one_statement w (table_name a b : pyval) :
  one_call w (snd (select run_sql table_name a b w))
  /\ one_call w (snd (insert run_sql table_name a w))
  /\ one_call w (snd (update run_sql table_name a b w))
  /\ one_call w (snd (delete run_sql table_name a w))
  /\ one_call w (snd (clear_table run_sql table_name w)).
Proof.
  split; [| split; [| split; [| split]]].
  - apply select_one_call.
  - apply statement_ends_one_call, insert_cases.
  - apply statement_ends_one_call, update_cases.
  - apply statement_ends_one_call, delete_cases.
  - apply statement_ends_one_call, clear_table_cases.
Qed.

Lemma statement_ends_none_means_sent w (r : outcome pyval * world DB) :
  statement_ends run_sql w r -> none_means_sent w r.
Proof.
  intros [(d & Hd & ->) | [(_ & ->) | [(c & _ & ->) | [(c & e & _ & ->)
                                                      | (c & q & _ & H)]]]] v Hv;
    simpl in *.
  - injection Hv as <-. right. repeat split; auto.
  - discriminate.
  - injection Hv as <-. right. split; [unfold descriptor; simpl; tauto |].
    split; [| reflexivity].
    now rewrite executions_app, Nat.add_0_r.
  - discriminate.
  - destruct H as (Hcalls & _ & _ & Hr). left.
    rewrite Hcalls, executions_app. split.
    + rewrite Hr in Hv. destruct (snd (run_sql q (database w))); congruence.
    + unfold executions at 2; simpl. lia.
Qed.

(** X8: for [insert], [update], [delete] and [clear_table], whatever the
    arguments: when the call returns [None], exactly one statement was sent;
    when it returns anything else, that is one of the five descriptors, no
    statement was sent and the database is as it was. *)
Theorem none_is_returned_only_after_a_statement w (table_name a b : pyval) :
  none_means_sent w (insert run_sql table_name a w)
  /\ none_means_sent w (update run_sql table_name a b w)
  /\ none_means_sent w (delete run_sql table_name a w)
  /\ none_means_sent w (clear_table run_sql table_name w).
Proof.
  split; [| split; [| split]]; apply statement_ends_none_means_sent.
  - apply insert_cases.
  - apply update_cases.
  - apply delete_cases.
  - apply clear_table_cases.
Qed.

(** X9: for [select], whatever the arguments: a value that is returned is either
    the list of the rows, after exactly one statement was sent, or one of the
    descriptors, with the process as it was. *)
Theorem select_returns_rows_or_a_descriptor w (table_name columns where_ v : pyval) :
  fst (select run_sql table_name columns where_ w) = Returns v ->
  (exists rows, v = PList rows
                /\ executions (calls (snd (select run_sql table_name columns where_ w)))
                   = S (executions (calls w)))
  \/ (descriptor v /\ snd (select run_sql table_name columns where_ w) = w).
Proof.
  intro Hv.
  destruct (select_cases w table_name columns where_)
    as [(d & Hd & H) | [(_ & H) | [(c & msg & _ & H) | (c & q & _ & H)]]].
  - rewrite H in *; simpl in *. injection Hv as <-. now right.
  - rewrite H in Hv. discriminate.
  - rewrite H in Hv. discriminate.
  - left. destruct H as (_ & _ & H).
    destruct (snd (run_sql q (database w))) as [e | [rows |]];
      destruct H as [Hcalls Hr]; rewrite Hr in Hv; try discriminate.
    injection Hv as <-. exists rows. split; [reflexivity |].
    rewrite Hcalls, executions_app. unfold executions at 2; simpl. lia.
Qed.

(** *** A gateway in use *)

Lemma serve_step w (i : nat) (r : request) :
  _instance w = Some i ->
  same_process w (serve run_sql connect_error r w)
  /\ connects (calls (serve run_sql connect_error r w)) = connects (calls w)
  /\ (executions (calls (serve run_sql connect_error r w))
      <= executions (calls w) + (if is_construct r then 0 else 1))%nat.
Proof.
  intro Hi.
  assert (Hone : forall w', one_call w w' ->
            same_process w w'
            /\ connects (calls w') = connects (calls w)
            /\ (executions (calls w') <= executions (calls w) + 1)%nat).
  { intros w' (Hsame & sent & Hcalls & Hconn & Hexec & _).
    split; [exact Hsame |]. rewrite Hcalls, connects_app, executions_app. lia. }
  destruct r; simpl.
  - rewrite (new_again connect_error w i Hi); simpl.
    split; [apply same_process_refl | lia].
  - apply Hone, select_one_call.
  - apply Hone, statement_ends_one_call, insert_cases.
  - apply Hone, statement_ends_one_call, update_cases.
  - apply Hone, statement_ends_one_call, delete_cases.
  - apply Hone, statement_ends_one_call, clear_table_cases.
Qed.

(** X10: once an instance is recorded, no sequence of constructions and method
    calls, whatever their arguments and whatever fails on the way, changes
    the instance, the connection handle or its autocommit flag, or opens a
    connection; and it sends at most one statement per method call. *)
Theorem gateway_in_use_keeps_its_connection w (i : nat) (rs : list request) :
  _instance w = Some i ->
  same_process w (serve_all run_sql connect_error rs w)
  /\ connects (calls (serve_all run_sql connect_error rs w)) = connects (calls w)
  /\ (executions (calls (serve_all run_sql connect_error rs w))
      <= executions (calls w)
         + length (filter (fun r => negb (is_construct r)) rs))%nat.
Proof.
  revert w. induction rs as [| r rs IH]; intros w Hi; simpl.
  - split; [apply same_process_refl | lia].
  - destruct (serve_step w i r Hi) as (Hsame & Hconn & Hexec).
    assert (Hi' : _instance (serve run_sql connect_error r w) = Some i)
      by (destruct Hsame as (_ & _ & -> & _); exact Hi).
    destruct (IH _ Hi') as (Hsame' & Hconn' & Hexec').
    split; [exact (same_process_trans _ _ _ Hsame Hsame') |].
    split; [congruence |].
    unfold serve_all in *; simpl.
    destruct (is_construct r); simpl in *; lia.
Qed.

(** *** Construction *)

(** X11: the first construction calls [load_dotenv], then [connect], and nothing
    else; [connect] receives the five variables [DATABASE_NAME],
    [DATABASE_HOST], [DATABASE_USERNAME], [DATABASE_PASSWORD] and
    [DATABASE_PORT] as the environment holds them after [load_dotenv]: the
    value of the process environment when it has one, else the value of the
    environment file, else [None]. *)
Theorem first_construction_reads_the_environment w :
  _instance w = None ->
  let var name :=
    match env_lookup name (environ w) with
    | Some v => Some v
    | None => env_lookup name (dotenv_file w)
    end in
  calls (snd (__new__ connect_error w))
  = (calls w ++ [LoadDotenv;
                 Connect {| dbname := var "DATABASE_NAME";
                            host := var "DATABASE_HOST";
                            user := var "DATABASE_USERNAME";
                            password := var "DATABASE_PASSWORD";
                            port := var "DATABASE_PORT" |}])%list.
Proof.
  intros Hi var.
  unfold __new__, bind, get_instance, load_dotenv, object_new, put_instance,
    getenv, psycopg2_connect, put_connection, put_autocommit.
  rewrite Hi; simpl. rewrite !env_lookup_with_dotenv. fold var.
  destruct (connect_error _ (database w)); simpl; now rewrite <- app_assoc.
Qed.

(** X12: when the server refuses the first connection, the exception leaves
    [__new__] after the instance has been recorded: the class holds an
    instance and no connection, every later construction returns that
    instance without asking for a connection again, and a query on it
    raises [AttributeError]. *)
Theorem refused_connection_is_never_retried w (e : exn) :
  _instance w = None ->
  _connection w = None ->
  fst (__new__ connect_error w) = Raises e ->
  let w1 := snd (__new__ connect_error w) in
  _instance w1 = Some (next_object w)
  /\ _connection w1 = None
  /\ connects (calls w1) = S (connects (calls w))
  /\ (forall n, construct connect_error n w1
               = (repeat (Returns (Some (next_object w))) n, w1))
  /\ (forall t, clear_table run_sql (PStr t) w1 = (Raises no_connection, w1)).
Proof.
  intros Hi Hc He w1.
  destruct (new_first connect_error w Hi) as (Hobj & Hconn & _).
  fold w1 in Hobj, Hconn.
  assert (Hnone : _connection w1 = None).
  { revert He. unfold w1, __new__, bind, get_instance, load_dotenv, object_new,
      put_instance, getenv, psycopg2_connect, put_connection, put_autocommit.
    rewrite Hi; simpl.
    destruct (connect_error _ (database w)); simpl; [intros _; exact Hc | discriminate]. }
  split; [exact Hobj | split; [exact Hnone | split; [exact Hconn | split]]].
  - intro n. now apply construct_again.
  - intro t. unfold clear_table, bind, connection_cursor; simpl. now rewrite Hnone.
Qed.

(** *** Empty arguments *)

(** X13: an empty dict is not refused: [insert] sends [INSERT INTO t () VALUES ()]
    and [update] sends [UPDATE t SET ], with an empty list of assignments. *)
Theorem empty_dict_is_sent w c t wh :
  _connection w = Some c ->
  executes run_sql ("INSERT INTO " ++ t ++ " () VALUES ()") (conn_id c) w
    (insert run_sql (PStr t) (PDict []) w)
  /\ executes run_sql ("UPDATE " ++ t ++ " SET ") (conn_id c) w
       (update run_sql (PStr t) (PDict []) PNone w)
  /\ executes run_sql ("UPDATE " ++ t ++ " SET  WHERE " ++ wh) (conn_id c) w
       (update run_sql (PStr t) (PDict []) (PStr wh) w).
Proof.
  intro Hc. split; [| split].
  - exact (insert_fields run_sql w c t [] [] Hc eq_refl).
  - exact (update_fields run_sql w c t [] [] Hc eq_refl).
  - exact (update_fields_where run_sql w c t [] [] wh Hc eq_refl).
Qed.

(** X14: a filter is appended whenever it is not [None]: the empty string is a
    filter, and the statement ends with [ WHERE ] and nothing after it; for
    [update], with a dict of string keys (each key once) whose values
    [str] converts. *)
Theorem empty_filter_is_appended w c t (fields : list (string * pyval))
        (texts : list string) :
  _connection w = Some c ->
  NoDup (map fst fields) ->
  serialize_all (interp w) (map snd fields) = Returns texts ->
  fetches run_sql ("SELECT * FROM " ++ t ++ " WHERE ") (conn_id c) w
    (select run_sql (PStr t) PNone (PStr "") w)
  /\ executes run_sql ("DELETE FROM " ++ t ++ " WHERE ") (conn_id c) w
       (delete run_sql (PStr t) (PStr "") w)
  /\ executes run_sql
       ("UPDATE " ++ t ++ " SET "
          ++ concat_sep ", "
               (map (fun kt => fst kt ++ "=" ++ snd kt) (combine (map fst fields) texts))
          ++ " WHERE ")
       (conn_id c) w
       (update run_sql (PStr t) (fields_dict fields) (PStr "") w).
Proof.
  intros Hc _ Ht. split; [| split].
  - exact (select_star_where run_sql w c t "" Hc).
  - unfold delete; simpl.
    exact (execute_after_cursor run_sql w c ("DELETE FROM " ++ t ++ " WHERE ") Hc).
  - exact (update_fields_where run_sql w c t fields texts "" Hc Ht).
Qed.

(** X15: [None] and booleans are written as Python prints them: [insert] sends
    the value [None] as the text [None] and [update] sends [True] and
    [False]. *)
Theorem none_and_booleans_are_sent_as_python_text w c t col (b : bool) :
  _connection w = Some c ->
  executes run_sql ("INSERT INTO " ++ t ++ " (" ++ col ++ ") VALUES (None)")
    (conn_id c) w
    (insert run_sql (PStr t) (PDict [(PStr col, PNone)]) w)
  /\ executes run_sql
       ("UPDATE " ++ t ++ " SET " ++ col ++ "=" ++ (if b then "True" else "False"))
       (conn_id c) w
       (update run_sql (PStr t) (PDict [(PStr col, PBool b)]) PNone w).
Proof.
  intro Hc. split.
  - exact (insert_fields run_sql w c t [(col, PNone)] ["None"] Hc eq_refl).
  - destruct b.
    + exact (update_fields run_sql w c t [(col, PBool true)] ["True"] Hc eq_refl).
    + exact (update_fields run_sql w c t [(col, PBool false)] ["False"] Hc eq_refl).
Qed.

(** *** Texts that are not escaped *)

(** X16: the statement does not tell the arguments it was built from: for
    two different column names [x] and [y], one column named [x, y] with the
    string [a", "b] as its value gives the run of the two columns [x] and [y]
    with the values [a] and [b]. *)
Theorem insert_does_not_separate_values w (table_name : pyval) (x y a b : string) :
  x <> y ->
  insert run_sql table_name
    (PDict [(PStr (x ++ ", " ++ y),
             PStr (a ++ String dquote (", " ++ String dquote b)))]) w
  = insert run_sql table_name (PDict [(PStr x, PStr a); (PStr y, PStr b)]) w.
Proof.
  intros _.
  unfold insert. destruct (is_str table_name); simpl; [| reflexivity].
  unfold bind, lift, with_interp, connection_cursor.
  destruct (_connection w); simpl; [| reflexivity].
  repeat (rewrite !append_assoc; simpl). reflexivity.
Qed.

(** X17: the table name is not checked either: a filter written after the table
    name is the filter of the statement. [clear_table] with such a name runs
    as [delete] with the filter, and [select] without filter as [select]
    with it. *)
Theorem table_name_can_carry_a_filter w t wh (columns : pyval) :
  clear_table run_sql (PStr (t ++ " WHERE " ++ wh)) w
  = delete run_sql (PStr t) (PStr wh) w
  /\ select run_sql (PStr (t ++ " WHERE " ++ wh)) columns PNone w
     = select run_sql (PStr t) columns (PStr wh) w.
Proof.
  split.
  - reflexivity.
  - unfold select; simpl.
    destruct (negb (is_none columns) && negb (is_list columns)
              && negb (is_tuple columns)); [reflexivity |].
    unfold bind, lift. destruct (connection_cursor w) as [[cur | e] w1];
      [| reflexivity].
    destruct (is_none columns); simpl.
    + rewrite ?append_assoc. reflexivity.
    + destruct (py_iter columns) as [items | e]; [| reflexivity].
      destruct (str_join ", " items) as [cols | e]; [| reflexivity].
      simpl. rewrite ?append_assoc. reflexivity.
Qed.

End Edges.

(** ** At concrete inputs *)

Lemma select_filter_only_and_columns_only_witness :
  fetches demo_run_sql "SELECT * FROM orders WHERE id=5" 1 demo_world
    (call_select demo_run_sql [PStr "orders"] [("where", PStr "id=5")] demo_world)
  /\ fetches demo_run_sql "SELECT id, name FROM orders" 1 demo_world
       (call_select demo_run_sql [PStr "orders"; PList [PStr "id"; PStr "name"]] []
          demo_world).
Proof.
  exact (select_filter_only_and_columns_only demo_run_sql demo_world _ "orders"
           ["id"; "name"] "id=5" eq_refl).
Defined.

Lemma select_non_string_item_witness :
  select demo_run_sql (PStr "orders") (PList [PStr "id"; PStr "name"; PInt 3; PNone])
    (PStr "id=5") demo_world
  = (Raises (TypeError "sequence item 2: expected str instance, int found"),
     log (Cursor 1) demo_world).
Proof.
  exact (select_non_string_item demo_run_sql demo_world _ "orders" ["id"; "name"]
           (PInt 3) [PNone] (PStr "id=5") eq_refl eq_refl eq_refl).
Defined.

Lemma non_string_key_is_refused_after_cursor_witness :
  insert demo_run_sql (PStr "orders") (PDict [(PStr "a", PInt 1); (PInt 2, PInt 3)])
    demo_world
  = (Returns keys_error, log (Cursor 1) demo_world)
  /\ update demo_run_sql (PStr "orders") (PDict [(PStr "a", PInt 1); (PInt 2, PInt 3)])
       PNone demo_world
     = (Returns keys_error, log (Cursor 1) demo_world).
Proof.
  exact (non_string_key_is_refused_after_cursor demo_run_sql demo_world _ "orders"
           [(PStr "a", PInt 1); (PInt 2, PInt 3)] PNone eq_refl eq_refl eq_refl).
Defined.

Lemma methods_without_connection_witness :
  _connection (fresh_world []) = None
  /\ select demo_run_sql (PStr "orders") (PList [PStr "id"]) PNone (fresh_world [])
     = (Raises no_connection, fresh_world [])
  /\ insert demo_run_sql (PStr "orders") (PDict [(PInt 2, PInt 3)]) (fresh_world [])
     = (Raises no_connection, fresh_world []).
Proof.
  pose proof (methods_without_connection demo_run_sql (fresh_world []) "orders"
                (PList [PStr "id"]) PNone [(PInt 2, PInt 3)] "id=5"
                eq_refl eq_refl eq_refl) as (H1 & H2 & _).
  split; [reflexivity | split; [exact H1 | exact H2]].
Defined.

Lemma first_failed_check_is_reported_witness :
  select demo_run_sql (PStr "orders") (PInt 1) (PInt 2) demo_world
  = (Returns columns_error, demo_world)
  /\ update demo_run_sql (PStr "orders") (PDict [(PInt 2, PInt 3)]) (PInt 2) demo_world
     = (Returns where_error, demo_world).
Proof.
  pose proof (first_failed_check_is_reported demo_run_sql demo_world "orders"
                (PInt 1) (PInt 2) PNone [(PInt 2, PInt 3)] eq_refl)
    as (H1 & _ & H3 & _).
  split; [exact (H1 eq_refl) | exact H3].
Defined.

Lemma select_returns_rows_or_a_descriptor_witness :
  fst (select demo_run_sql (PStr "orders") PNone PNone demo_world)
  = Returns (PList [PTuple [PInt 1; PStr "x"]])
  /\ ((exists rows,
          PList [PTuple [PInt 1; PStr "x"]] = PList rows
          /\ executions (calls (snd (select demo_run_sql (PStr "orders") PNone PNone
                                       demo_world)))
             = S (executions (calls demo_world)))
      \/ (descriptor (PList [PTuple [PInt 1; PStr "x"]])
          /\ snd (select demo_run_sql (PStr "orders") PNone PNone demo_world)
             = demo_world)).
Proof.
  split; [reflexivity |].
  exact (select_returns_rows_or_a_descriptor demo_run_sql demo_world (PStr "orders")
           PNone PNone (PList [PTuple [PInt 1; PStr "x"]]) eq_refl).
Defined.

Lemma gateway_in_use_keeps_its_connection_witness :
  let rs := [Select (PStr "orders") PNone PNone; Construct;
             Insert (PStr "orders") (PDict [(PStr "a", PInt 1)]);
             Delete (PStr "orders") (PInt 5); ClearTable (PStr "")] in
  _instance demo_world = Some 0%nat
  /\ same_process demo_world (serve_all demo_run_sql demo_connect_error rs demo_world)
  /\ connects (calls (serve_all demo_run_sql demo_connect_error rs demo_world))
     = connects (calls demo_world).
Proof.
  intro rs.
  pose proof (gateway_in_use_keeps_its_connection demo_run_sql demo_connect_error
                demo_world 0%nat rs eq_refl) as (H1 & H2 & _).
  split; [reflexivity | split; [exact H1 | exact H2]].
Defined.

Lemma first_construction_reads_the_environment_witness :
  calls (snd (__new__ demo_connect_error
                (fresh_world [("DATABASE_NAME", "shop"); ("DATABASE_PORT", "6543")])))
  = [LoadDotenv;
     Connect {| dbname := Some "shop"; host := None; user := None; password := None;
                port := Some "6543" |}].
Proof.
  exact (first_construction_reads_the_environment demo_connect_error
           (fresh_world [("DATABASE_NAME", "shop"); ("DATABASE_PORT", "6543")])
           eq_refl).
Defined.

Lemma refused_connection_is_never_retried_witness :
  fst (__new__ demo_connect_error (fresh_world []))
  = Raises (DatabaseError "connection refused")
  /\ _connection (snd (__new__ demo_connect_error (fresh_world []))) = None
  /\ construct demo_connect_error 2 (snd (__new__ demo_connect_error (fresh_world [])))
     = ([Returns (Some 0%nat); Returns (Some 0%nat)],
        snd (__new__ demo_connect_error (fresh_world []))).
Proof.
  pose proof (refused_connection_is_never_retried demo_run_sql demo_connect_error
                (fresh_world []) (DatabaseError "connection refused")
                eq_refl eq_refl eq_refl) as (_ & H2 & _ & H4 & _).
  split; [reflexivity | split; [exact H2 | exact (H4 2%nat)]].
Defined.

Lemma empty_dict_is_sent_witness :
  executes demo_run_sql "INSERT INTO orders () VALUES ()" 1 demo_world
    (insert demo_run_sql (PStr "orders") (PDict []) demo_world)
  /\ executes demo_run_sql "UPDATE orders SET " 1 demo_world
       (update demo_run_sql (PStr "orders") (PDict []) PNone demo_world).
Proof.
  pose proof (empty_dict_is_sent demo_run_sql demo_world _ "orders" "id=5" eq_refl)
    as (H1 & H2 & _).
  split; [exact H1 | exact H2].
Defined.

Lemma empty_filter_is_appended_witness :
  fetches demo_run_sql "SELECT * FROM orders WHERE " 1 demo_world
    (select demo_run_sql (PStr "orders") PNone (PStr "") demo_world)
  /\ executes demo_run_sql "DELETE FROM orders WHERE " 1 demo_world
       (delete demo_run_sql (PStr "orders") (PStr "") demo_world)
  /\ executes demo_run_sql "UPDATE orders SET a=2, b=None WHERE " 1 demo_world
       (update demo_run_sql (PStr "orders")
          (PDict [(PStr "a", PInt 2); (PStr "b", PNone)]) (PStr "") demo_world).
Proof.
  assert (Hkeys : NoDup (map fst [("a", PInt 2); ("b", PNone)]))
    by (repeat constructor; simpl; intuition discriminate).
  exact (empty_filter_is_appended demo_run_sql demo_world _ "orders"
           [("a", PInt 2); ("b", PNone)] ["2"; "None"] eq_refl Hkeys eq_refl).
Defined.

Lemma insert_does_not_separate_values_witness :
  "x" <> "y"
  /\ insert demo_run_sql (PStr "orders")
       (PDict [(PStr "x, y", PStr ("a" ++ String dquote (", " ++ String dquote "b")))])
       demo_world
     = insert demo_run_sql (PStr "orders")
         (PDict [(PStr "x", PStr "a"); (PStr "y", PStr "b")]) demo_world.
Proof.
  assert (H : "x" <> "y") by discriminate.
  split; [exact H |].
  exact (insert_does_not_separate_values demo_run_sql demo_world (PStr "orders")
           "x" "y" "a" "b" H).
Defined.

Lemma none_and_booleans_are_sent_as_python_text_witness :
  executes demo_run_sql "INSERT INTO orders (paid) VALUES (None)" 1 demo_world
    (insert demo_run_sql (PStr "orders") (PDict [(PStr "paid", PNone)]) demo_world)
  /\ executes demo_run_sql "UPDATE orders SET paid=True" 1 demo_world
       (update demo_run_sql (PStr "orders") (PDict [(PStr "paid", PBool true)]) PNone
          demo_world).
Proof.
  exact (none_and_booleans_are_sent_as_python_text demo_run_sql demo_world _ "orders"
           "paid" true eq_refl).
Defined.
